(** * The chat widget of static/js/main.js

    A shallow embedding of the browser script: the page it drives is a record,
    the statements that read or write the page are computations in a small
    monad that threads the page, records every side effect in order and
    carries JavaScript's [throw], and the promise chains of [fetch] become
    handlers run when a request in flight settles. *)

From Stdlib Require Import String Ascii List Bool ZArith Lia DecimalString.
From Stdlib Require Import DecimalPos DecimalZ.
Import ListNotations.
Local Open Scope string_scope.
Local Open Scope Z_scope.

Set Implicit Arguments.

(** ** Strings

    A JavaScript string is held as the bytes of its UTF-8 encoding, the way a
    string literal of this file is. *)

Definition LF : ascii := "010"%char.
Definition DQUOTE : ascii := "034"%char.

(** The decimal rendering of an integer, as a template literal prints it. *)
Definition decimal (z : Z) : string := NilZero.string_of_int (Z.to_int z).


Module Trim.

(** White space and line terminators of ECMAScript, by the bytes of their
    encoding: one byte (TAB, LF, VT, FF, CR, SP), two bytes (U+00A0) and
    three bytes (U+1680, U+2000 to U+200A, U+2028, U+2029, U+202F, U+205F,
    U+3000, U+FEFF). *)
Definition ws1 (a : ascii) : bool :=
  let n := nat_of_ascii a in
  ((9 <=? n) && (n <=? 13) || (n =? 32))%nat.

Definition ws2 (a b : ascii) : bool :=
  ((nat_of_ascii a =? 194) && (nat_of_ascii b =? 160))%nat.

Definition ws3 (a b c : ascii) : bool :=
  let x := nat_of_ascii a in
  let y := nat_of_ascii b in
  let z := nat_of_ascii c in
  ((x =? 225) && (y =? 154) && (z =? 128)
   || (x =? 226) && (y =? 128)
      && ((128 <=? z) && (z <=? 138) || (z =? 168) || (z =? 169) || (z =? 175))
   || (x =? 226) && (y =? 129) && (z =? 159)
   || (x =? 227) && (y =? 128) && (z =? 128)
   || (x =? 239) && (y =? 187) && (z =? 191))%nat.

(** Drops the white space a byte list starts with. *)
Fixpoint drop_start (l : list ascii) : list ascii :=
  match l with
  | [] => []
  | a :: r1 =>
      if ws1 a then drop_start r1
      else match r1 with
           | [] => l
           | b :: r2 =>
               if ws2 a b then drop_start r2
               else match r2 with
                    | [] => l
                    | c :: r3 => if ws3 a b c then drop_start r3 else l
                    end
           end
  end.

(** The same on a reversed byte list: the bytes of a code point come last
    byte first. *)
Fixpoint drop_start_rev (l : list ascii) : list ascii :=
  match l with
  | [] => []
  | c :: r1 =>
      if ws1 c then drop_start_rev r1
      else match r1 with
           | [] => l
           | b :: r2 =>
               if ws2 b c then drop_start_rev r2
               else match r2 with
                    | [] => l
                    | a :: r3 => if ws3 a b c then drop_start_rev r3 else l
                    end
           end
  end.

(** [String.prototype.trim]. *)
Definition trim (s : string) : string :=
  string_of_list_ascii
    (rev (drop_start_rev (rev (drop_start (list_ascii_of_string s))))).

End Trim.

Definition trim := Trim.trim.

(** [content.replace(/\n/g, '<br>')]: every line feed becomes the four
    characters of a line-break tag, everything else is kept. *)
Fixpoint replace_newlines (content : string) : string :=
  match content with
  | EmptyString => EmptyString
  | String c rest =>
      if Ascii.eqb c LF then "<br>" ++ replace_newlines rest
      else String c (replace_newlines rest)
  end.

Module Quote.

Definition hex_digit (n : nat) : ascii :=
  ascii_of_nat (if Nat.ltb n 10 then 48 + n else 87 + n).

(** What [JSON.stringify] writes for one byte of a string. *)
Definition escape (c : ascii) : string :=
  let n := nat_of_ascii c in
  if Nat.eqb n 34 then String "\" (String DQUOTE "")
  else if Nat.eqb n 92 then "\\"
  else if Nat.eqb n 8 then "\b"
  else if Nat.eqb n 9 then "\t"
  else if Nat.eqb n 10 then "\n"
  else if Nat.eqb n 12 then "\f"
  else if Nat.eqb n 13 then "\r"
  else if Nat.ltb n 32
       then "\u00" ++ String (hex_digit (Nat.div n 16))
                        (String (hex_digit (Nat.modulo n 16)) "")
  else String c "".

Fixpoint escape_all (s : string) : string :=
  match s with
  | EmptyString => EmptyString
  | String c rest => escape c ++ escape_all rest
  end.

Definition quote (s : string) : string :=
  String DQUOTE (escape_all s ++ String DQUOTE "").

End Quote.

(** [JSON.stringify({question: question})]. *)
Definition stringify_question (question : string) : string :=
  "{" ++ Quote.quote "question" ++ ":" ++ Quote.quote question ++ "}".

(** ** JSON payloads

    What [response.json()] resolves with.  Numbers are the integers the
    interface of the backend speaks of; a number that is no integer has no
    [JNum], and [JNum n] is the number JavaScript holds for [n] only up to
    magnitude 2^53 ([safe_numbers] below), beyond which a double rounds.  The
    members of an object are kept in the order of the response text. *)

#[warnings="-register-all"]
Inductive JSON : Type :=
| JNull
| JBool (b : bool)
| JNum (n : Z)
| JStr (s : string)
| JArr (items : list JSON)
| JObj (members : list (string * JSON)).

(** A JavaScript value read from a payload: [None] is [undefined]. *)
Definition Value := option JSON.

(** The member of that name; a name written twice keeps its last value. *)
Fixpoint member (name : string) (members : list (string * JSON)) : Value :=
  match members with
  | [] => None
  | (k, v) :: rest =>
      match member name rest with
      | Some w => Some w
      | None => if String.eqb k name then Some v else None
      end
  end.

Definition has_member (name : string) (members : list (string * JSON))
  : bool :=
  match member name members with Some _ => true | None => false end.

(** [ToBoolean]. *)
Definition truthy (v : Value) : bool :=
  match v with
  | None => false
  | Some JNull => false
  | Some (JBool b) => b
  | Some (JNum n) => negb (n =? 0)
  | Some (JStr s) => negb (String.eqb s "")
  | Some (JArr _) => true
  | Some (JObj _) => true
  end.

(** [ToString] of a payload value; [None] when the conversion throws a
    TypeError, which it does for an object whose own member [toString]
    hides the inherited method.  An array prints its items separated by
    commas, a [null] item as nothing.  A number prints as its decimal digits,
    which is what JavaScript prints for an integer of magnitude up to 2^53;
    properties that show a printed number are stated for [safe_numbers]. *)
Fixpoint to_string (v : JSON) : option string :=
  match v with
  | JNull => Some "null"
  | JBool true => Some "true"
  | JBool false => Some "false"
  | JNum n => Some (decimal n)
  | JStr s => Some s
  | JArr items =>
      (fix items_to_string (l : list JSON) : option string :=
         match l with
         | [] => Some ""
         | x :: rest =>
             let item := match x with JNull => Some "" | _ => to_string x end in
             match item, rest with
             | None, _ => None
             | Some sx, [] => Some sx
             | Some sx, _ :: _ =>
                 match items_to_string rest with
                 | Some sr => Some (sx ++ "," ++ sr)
                 | None => None
                 end
             end
         end) items
  | JObj members =>
      if has_member "toString" members then None else Some "[object Object]"
  end.

Definition value_to_string (v : Value) : option string :=
  match v with
  | None => Some "undefined"
  | Some j => to_string j
  end.

(** ** The page

    An entry of the message log is the [div] that [addMessage] creates: its
    class, its [id] attribute when it has one, and the markup assigned to
    [innerHTML], which is kept as text: the elements that the browser makes
    of that markup inside the entry are not part of the page record. *)

Record Element : Type := {
  className : string;
  elem_id : option string;
  innerHTML : string
}.

(** A request handed to [fetch]. *)
Record Fetch : Type := {
  url : string;
  method : string;
  headers : list (string * string);
  body : option string
}.

(** The promise chain attached to a request: which function issued it and
    what its callbacks captured. *)
Inductive Chain : Type :=
| StatsChain
| ReloadChain
| AskChain (loadingMsgId : Z).

(** The five elements the script looks up, reduced to the properties it reads
    or writes, and the requests in flight, oldest first. *)
Record Page : Type := {
  chat : list Element;          (* children of #chat-messages *)
  value : string;               (* questionInput.value *)
  input_disabled : bool;        (* questionInput.disabled *)
  focused : bool;               (* questionInput holds the focus *)
  send_disabled : bool;         (* sendBtn.disabled *)
  reload_disabled : bool;       (* reloadBtn.disabled *)
  reload_text : string;         (* reloadBtn.textContent *)
  stats_text : string;          (* statsDiv.textContent *)
  pending : list (Fetch * Chain)
}.

(** Every side effect of the script, as the trace records it. *)
Inductive Effect : Type :=
| AppendChild (e : Element)          (* chatMessages.appendChild(messageDiv) *)
| ScrollToEnd                        (* chatMessages.scrollTop = scrollHeight *)
| RemoveElement (key : string)       (* messageDiv.remove() *)
| SetValue (v : string)              (* questionInput.value = v *)
| SetInputDisabled (b : bool)        (* questionInput.disabled = b *)
| SetSendDisabled (b : bool)         (* sendBtn.disabled = b *)
| FocusInput                         (* questionInput.focus() *)
| SetReloadDisabled (b : bool)       (* reloadBtn.disabled = b *)
| SetReloadText (s : string)         (* reloadBtn.textContent = s *)
| SetStatsText (s : string)          (* statsDiv.textContent = s *)
| SendRequest (f : Fetch)            (* fetch(...) *)
| ConsoleError.                      (* console.error(...) *)

Definition with_chat (f : list Element -> list Element) (p : Page) : Page :=
  {| chat := f p.(chat); value := p.(value);
     input_disabled := p.(input_disabled); focused := p.(focused);
     send_disabled := p.(send_disabled);
     reload_disabled := p.(reload_disabled);
     reload_text := p.(reload_text); stats_text := p.(stats_text);
     pending := p.(pending) |}.

Definition with_value (v : string) (p : Page) : Page :=
  {| chat := p.(chat); value := v; input_disabled := p.(input_disabled);
     focused := p.(focused); send_disabled := p.(send_disabled);
     reload_disabled := p.(reload_disabled);
     reload_text := p.(reload_text); stats_text := p.(stats_text);
     pending := p.(pending) |}.

(** A disabled control cannot hold the focus. *)
Definition with_input_disabled (b : bool) (p : Page) : Page :=
  {| chat := p.(chat); value := p.(value); input_disabled := b;
     focused := p.(focused) && negb b; send_disabled := p.(send_disabled);
     reload_disabled := p.(reload_disabled);
     reload_text := p.(reload_text); stats_text := p.(stats_text);
     pending := p.(pending) |}.

Definition with_focused (b : bool) (p : Page) : Page :=
  {| chat := p.(chat); value := p.(value);
     input_disabled := p.(input_disabled); focused := b;
     send_disabled := p.(send_disabled);
     reload_disabled := p.(reload_disabled);
     reload_text := p.(reload_text); stats_text := p.(stats_text);
     pending := p.(pending) |}.

Definition with_send_disabled (b : bool) (p : Page) : Page :=
  {| chat := p.(chat); value := p.(value);
     input_disabled := p.(input_disabled); focused := p.(focused);
     send_disabled := b; reload_disabled := p.(reload_disabled);
     reload_text := p.(reload_text); stats_text := p.(stats_text);
     pending := p.(pending) |}.

Definition with_reload_disabled (b : bool) (p : Page) : Page :=
  {| chat := p.(chat); value := p.(value);
     input_disabled := p.(input_disabled); focused := p.(focused);
     send_disabled := p.(send_disabled); reload_disabled := b;
     reload_text := p.(reload_text); stats_text := p.(stats_text);
     pending := p.(pending) |}.

Definition with_reload_text (s : string) (p : Page) : Page :=
  {| chat := p.(chat); value := p.(value);
     input_disabled := p.(input_disabled); focused := p.(focused);
     send_disabled := p.(send_disabled);
     reload_disabled := p.(reload_disabled); reload_text := s;
     stats_text := p.(stats_text); pending := p.(pending) |}.

Definition with_stats_text (s : string) (p : Page) : Page :=
  {| chat := p.(chat); value := p.(value);
     input_disabled := p.(input_disabled); focused := p.(focused);
     send_disabled := p.(send_disabled);
     reload_disabled := p.(reload_disabled);
     reload_text := p.(reload_text); stats_text := s;
     pending := p.(pending) |}.

Definition with_pending (f : list (Fetch * Chain) -> list (Fetch * Chain))
    (p : Page) : Page :=
  {| chat := p.(chat); value := p.(value);
     input_disabled := p.(input_disabled); focused := p.(focused);
     send_disabled := p.(send_disabled);
     reload_disabled := p.(reload_disabled);
     reload_text := p.(reload_text); stats_text := p.(stats_text);
     pending := f p.(pending) |}.

(** ** Computations on the page

    A computation takes the page and gives how it completed (normally with a
    value, or by a thrown exception), the page it leaves and the side effects
    it performed, in order.  What was done before a throw stays done. *)

Inductive Completion (A : Type) : Type :=
| Normal (a : A)
| Thrown.
Arguments Thrown {A}.

Record Run (A : Type) : Type := {
  completion : Completion A;
  after : Page;
  trace : list Effect
}.

Definition M (A : Type) : Type := Page -> Run A.

Definition ret {A} (a : A) : M A :=
  fun p => {| completion := Normal a; after := p; trace := [] |}.

Definition throw {A} : M A :=
  fun p => {| completion := Thrown; after := p; trace := [] |}.

(** A run that took place after the effects [t]. *)
Definition prepend {A} (t : list Effect) (r : Run A) : Run A :=
  match r with
  | Build_Run c q t' => Build_Run c q (t ++ t')%list
  end.

Definition bind {A B} (m : M A) (k : A -> M B) : M B :=
  fun p =>
    match m p with
    | Build_Run (Normal a) q t => prepend t (k a q)
    | Build_Run Thrown q t => Build_Run Thrown q t
    end.

(** [try { m } catch { handler }]. *)
Definition try_catch {A} (m : M A) (handler : M A) : M A :=
  fun p =>
    match m p with
    | Build_Run (Normal a) q t => Build_Run (Normal a) q t
    | Build_Run Thrown q t => prepend t (handler q)
    end.

Declare Scope dom_scope.
Delimit Scope dom_scope with dom.
Notation "x <- m ;; k" := (bind m (fun x => k))
  (at level 61, m at next level, right associativity) : dom_scope.
Notation "m ;; k" := (bind m (fun _ => k))
  (at level 61, right associativity) : dom_scope.
Local Open Scope dom_scope.

(** Reads a property of the page. *)
Definition read {A} (f : Page -> A) : M A :=
  fun p => {| completion := Normal (f p); after := p; trace := [] |}.

(** Performs one side effect. *)
Definition perform (e : Effect) (f : Page -> Page) : M unit :=
  fun p => {| completion := Normal tt; after := f p; trace := [e] |}.

Definition appendChild (e : Element) : M unit :=
  perform (AppendChild e) (with_chat (fun l => (l ++ [e])%list)).

Definition scroll_to_end : M unit := perform ScrollToEnd (fun p => p).

Definition set_value (v : string) : M unit :=
  perform (SetValue v) (with_value v).

Definition set_input_disabled (b : bool) : M unit :=
  perform (SetInputDisabled b) (with_input_disabled b).

Definition set_send_disabled (b : bool) : M unit :=
  perform (SetSendDisabled b) (with_send_disabled b).

(** [questionInput.focus()] moves the focus to the field unless the field is
    disabled. *)
Definition focus_input : M unit :=
  perform FocusInput
    (fun p => if p.(input_disabled) then p else with_focused true p).

Definition set_reload_disabled (b : bool) : M unit :=
  perform (SetReloadDisabled b) (with_reload_disabled b).

Definition set_reload_text (s : string) : M unit :=
  perform (SetReloadText s) (with_reload_text s).

Definition set_stats_text (s : string) : M unit :=
  perform (SetStatsText s) (with_stats_text s).

Definition console_error : M unit := perform ConsoleError (fun p => p).

(** [fetch(...)] with its chain of callbacks: the request joins those in
    flight. *)
Definition fetch (f : Fetch) (c : Chain) : M unit :=
  perform (SendRequest f) (with_pending (fun l => (l ++ [(f, c)])%list)).

(** ** The functions of the script *)

(** A string literal or string variable passed where any value may be. *)
Definition str (s : string) : Value := Some (JStr s).

Definition msg_key (id : Z) : string := "msg-" ++ decimal id.

(** [if (id) messageDiv.id = `msg-${id}`]: the default [null] and the number
    zero are falsy. *)
Definition lookup_key (id : option Z) : option string :=
  match id with
  | None => None
  | Some n => if n =? 0 then None else Some (msg_key n)
  end.

(** [addMessage(type, content, id = null)].  [content.replace] throws a
    TypeError unless [content] is a string, and does so before the new
    element is attached. *)
Definition addMessage (type : string) (content : Value) (id : option Z)
  : M unit :=
  match content with
  | Some (JStr text) =>
      appendChild {| className := "message " ++ type;
                     elem_id := lookup_key id;
                     innerHTML := replace_newlines text |} ;;
      scroll_to_end
  | _ => throw
  end.

Definition has_id (key : string) (e : Element) : bool :=
  match e.(elem_id) with
  | Some k => String.eqb k key
  | None => false
  end.

(** [document.getElementById(key)] for a key [msg-...]: the first entry of
    the log with that id.  The fixed elements of the page carry other ids.
    The browser also looks inside the entries, at the elements their markup
    made: the two lookups agree on a log whose markup makes no element with
    an id ([inert_log] below), and properties that depend on what a lookup
    finds are stated for such logs. *)
Definition getElementById (key : string) (p : Page) : option Element :=
  find (has_id key) p.(chat).

(** [messageDiv.remove()] for the element found under [key], which on an
    inert log is an entry of the log. *)
Fixpoint remove_first (key : string) (l : list Element) : list Element :=
  match l with
  | [] => []
  | e :: rest => if has_id key e then rest else e :: remove_first key rest
  end.

(** [removeMessage(id)]. *)
Definition removeMessage (id : Z) : M unit :=
  messageDiv <- read (getElementById (msg_key id)) ;;
  match messageDiv with
  | Some _ =>
      perform (RemoveElement (msg_key id)) (with_chat (remove_first (msg_key id)))
  | None => ret tt
  end.

(** [data.name] for the names the script reads ([success], [sections_count],
    [answer], [error]): a TypeError on [null], the member on an object, and
    [undefined] on a number, a string, a boolean or an array, none of which
    carries a property of those names. *)
Definition property (data : JSON) (name : string) : M Value :=
  match data with
  | JNull => throw
  | JObj members => ret (member name members)
  | _ => ret None
  end.

(** A value spliced into a template literal or added to a string. *)
Definition string_of (v : Value) : M string :=
  match value_to_string v with
  | Some s => ret s
  | None => throw
  end.

(** How a request in flight ends: [fetch] or [response.json()] rejects, or
    the body parses to a payload. *)
Inductive Settlement : Type :=
| Rejected
| Resolved (data : JSON).

(** [.then(response => response.json()).then(on_data).catch(on_error)]: the
    error callback also runs when the data callback throws.  The callbacks
    of one chain run as one step of the event loop. *)
Definition settle (on_data : JSON -> M unit) (on_error : M unit)
    (o : Settlement) : M unit :=
  match o with
  | Rejected => on_error
  | Resolved data => try_catch (on_data data) on_error
  end.

Definition stats_then (data : JSON) : M unit :=
  success <- property data "success" ;;
  if truthy success then
    count <- property data "sections_count" ;;
    n <- string_of count ;;
    set_stats_text (n ++ " sections de documentation disponibles")
  else
    set_stats_text "Erreur lors du chargement des statistiques".

Definition stats_catch : M unit :=
  console_error ;;
  set_stats_text "Erreur de connexion".

Definition loadStats : M unit :=
  fetch {| url := "/api/stats"; method := "GET"; headers := []; body := None |}
        StatsChain.

Definition reload_then (data : JSON) : M unit :=
  success <- property data "success" ;;
  (if truthy success then
     count <- property data "sections_count" ;;
     n <- string_of count ;;
     addMessage "system"
       (str ("Rechargement terminé. " ++ n ++ " sections disponibles.")) None
   else
     addMessage "system"
       (str "Erreur lors du rechargement de la documentation.") None) ;;
  count <- property data "sections_count" ;;
  n <- string_of count ;;
  set_stats_text (n ++ " sections de documentation disponibles") ;;
  set_reload_disabled false ;;
  set_reload_text "Recharger la documentation".

Definition reload_catch : M unit :=
  console_error ;;
  addMessage "system" (str "Erreur de connexion lors du rechargement.") None ;;
  set_reload_disabled false ;;
  set_reload_text "Recharger la documentation".

Definition reloadDocuments : M unit :=
  set_reload_disabled true ;;
  set_reload_text "Chargement en cours..." ;;
  addMessage "system" (str "Rechargement de la documentation en cours...") None ;;
  fetch {| url := "/api/reload"; method := "POST"; headers := []; body := None |}
        ReloadChain.

Definition ask_then (loadingMsgId : Z) (data : JSON) : M unit :=
  removeMessage loadingMsgId ;;
  success <- property data "success" ;;
  (if truthy success then
     answer <- property data "answer" ;;
     addMessage "assistant" answer None
   else
     error <- property data "error" ;;
     text <- string_of (if truthy error then error else str "Problème inconnu") ;;
     addMessage "system" (str ("Erreur: " ++ text)) None) ;;
  set_input_disabled false ;;
  set_send_disabled false ;;
  focus_input.

Definition ask_catch (loadingMsgId : Z) : M unit :=
  console_error ;;
  removeMessage loadingMsgId ;;
  addMessage "system" (str "Erreur de connexion. Veuillez réessayer.") None ;;
  set_input_disabled false ;;
  set_send_disabled false ;;
  focus_input.

(** [sendQuestion()], with the reading [now] that [Date.now()] gives when it
    is called. *)
Definition sendQuestion (now : Z) : M unit :=
  v <- read value ;;
  let question := trim v in
  if String.eqb question "" then ret tt
  else
    addMessage "user" (str question) None ;;
    set_value "" ;;
    set_input_disabled true ;;
    set_send_disabled true ;;
    let loadingMsgId := now in
    addMessage "assistant" (str "Recherche en cours...") (Some loadingMsgId) ;;
    fetch {| url := "/api/ask"; method := "POST";
             headers := [("Content-Type", "application/json")];
             body := Some (stringify_question question) |}
          (AskChain loadingMsgId).

(** The listener registered for [keypress] on the question field. *)
Definition on_keypress (key : string) (now : Z) : M unit :=
  if String.eqb key "Enter" then sendQuestion now else ret tt.

(** The listener registered for [click] on the send button: [sendQuestion]
    itself, which ignores the event it is passed. *)
Definition on_send_click (now : Z) : M unit := sendQuestion now.

(** The listener registered for [click] on the reload button. *)
Definition on_reload_click : M unit := reloadDocuments.

(** The listener of [DOMContentLoaded]: beyond looking the elements up and
    registering the listeners above, it loads the statistics. *)
Definition on_DOMContentLoaded : M unit := loadStats.

(** The callbacks of a chain, run when its request settles. *)
Definition run_chain (c : Chain) (o : Settlement) : M unit :=
  match c with
  | StatsChain => settle stats_then stats_catch o
  | ReloadChain => settle reload_then reload_catch o
  | AskChain loadingMsgId =>
      settle (ask_then loadingMsgId) (ask_catch loadingMsgId) o
  end.

(** ** The event loop

    What can happen to the page: the user edits the field, moves the focus,
    clicks a button or presses a key in the field, or the [n]-th request in
    flight settles.  The browser delivers no click to a disabled button and no
    key to a field that is disabled or without focus, and a disabled field
    takes neither focus nor text. *)

Inductive Event : Type :=
| Edit (text : string)
| Focus
| Blur
| ClickSend (now : Z)
| Keypress (key : string) (now : Z)
| ClickReload
| Settle (n : nat) (o : Settlement).

Definition remove_nth {A} (n : nat) (l : list A) : list A :=
  (firstn n l ++ skipn (S n) l)%list.

Definition dispatch (e : Event) : M unit :=
  fun p =>
    match e with
    | Edit text =>
        if p.(input_disabled) then ret tt p
        else {| completion := Normal tt; after := with_value text p;
                trace := [] |}
    | Focus =>
        if p.(input_disabled) then ret tt p
        else {| completion := Normal tt; after := with_focused true p;
                trace := [] |}
    | Blur =>
        {| completion := Normal tt; after := with_focused false p;
           trace := [] |}
    | ClickSend now =>
        if p.(send_disabled) then ret tt p else on_send_click now p
    | Keypress key now =>
        if p.(input_disabled) || negb p.(focused) then ret tt p
        else on_keypress key now p
    | ClickReload =>
        if p.(reload_disabled) then ret tt p else on_reload_click p
    | Settle n o =>
        match nth_error p.(pending) n with
        | Some (_, c) => run_chain c o (with_pending (remove_nth n) p)
        | None => ret tt p
        end
    end.

(** The page after a sequence of events, and everything done on the way. *)
Fixpoint run (events : list Event) (p : Page) : Page * list Effect :=
  match events with
  | [] => (p, [])
  | e :: rest =>
      let r := dispatch e p in
      let '(q, t) := run rest r.(after) in
      (q, (r.(trace) ++ t)%list)
  end.

(** The pages the script can be in: a document that loads with no request in
    flight, the [DOMContentLoaded] listener, then any events. *)
Inductive reachable : Page -> Prop :=
| reach_loaded (html : Page) :
    html.(pending) = [] ->
    reachable (on_DOMContentLoaded html).(after)
| reach_event (p : Page) (e : Event) :
    reachable p ->
    reachable (dispatch e p).(after).

(** A document for the examples: empty log, empty field, everything enabled. *)
Definition blank_page : Page :=
  {| chat := []; value := ""; input_disabled := false; focused := false;
     send_disabled := false; reload_disabled := false;
     reload_text := "Recharger la documentation";
     stats_text := ""; pending := [] |}.

Definition loaded_page : Page := (on_DOMContentLoaded blank_page).(after).

(** ** Observations on pages and traces *)

(** How often an effect of some kind occurs in a trace. *)
Definition occurrences (kind : Effect -> bool) (t : list Effect) : nat :=
  List.length (filter kind t).

Definition enables_input (e : Effect) : bool :=
  match e with SetInputDisabled false => true | _ => false end.

Definition enables_send (e : Effect) : bool :=
  match e with SetSendDisabled false => true | _ => false end.

Definition focuses_input (e : Effect) : bool :=
  match e with FocusInput => true | _ => false end.

Definition enables_reload (e : Effect) : bool :=
  match e with SetReloadDisabled false => true | _ => false end.

Definition writes_reload_label (label : string) (e : Effect) : bool :=
  match e with SetReloadText s => String.eqb s label | _ => false end.

Definition appends (e : Effect) : bool :=
  match e with AppendChild _ => true | _ => false end.

Definition is_ask (r : Fetch * Chain) : bool :=
  match snd r with AskChain _ => true | _ => false end.

Definition is_reload (r : Fetch * Chain) : bool :=
  match snd r with ReloadChain => true | _ => false end.

(** The question POSTs and the reload POSTs in flight. *)
Definition asks_in_flight (p : Page) : nat :=
  List.length (filter is_ask p.(pending)).

Definition reloads_in_flight (p : Page) : nat :=
  List.length (filter is_reload p.(pending)).

Definition posts_in_flight (p : Page) : nat :=
  (asks_in_flight p + reloads_in_flight p)%nat.

(** The entry [addMessage] appends for a text and no correlation id. *)
Definition entry (type text : string) : Element :=
  {| className := "message " ++ type; elem_id := None;
     innerHTML := replace_newlines text |}.

(** The loading entry of a question submitted at clock reading [now]. *)
Definition placeholder (now : Z) : Element :=
  {| className := "message assistant"; elem_id := lookup_key (Some now);
     innerHTML := "Recherche en cours..." |}.




Fixpoint has_line_feed (s : string) : bool :=
  match s with
  | EmptyString => false
  | String c rest => Ascii.eqb c LF || has_line_feed rest
  end.

(** ** Pages of the examples and the invariant of the event loop *)

(** While a question is in flight the field and the send button are
    disabled, while a reload is in flight the reload button is disabled and
    reads its in-progress label; neither kind is in flight twice. *)
Definition serialized (p : Page) : Prop :=
  (asks_in_flight p
   <= if p.(input_disabled) && p.(send_disabled) then 1 else 0)%nat
  /\ (reloads_in_flight p
      <= if p.(reload_disabled)
            && String.eqb p.(reload_text) "Chargement en cours..."
         then 1 else 0)%nat.

(** An entry without a lookup key. *)
Definition untagged (e : Element) : bool :=
  match e.(elem_id) with None => true | Some _ => false end.

(** How many line feeds a text holds. *)
Fixpoint count_line_feeds (s : string) : nat :=
  match s with
  | EmptyString => 0
  | String c rest =>
      ((if Ascii.eqb c LF then 1 else 0) + count_line_feeds rest)%nat
  end.

(** The loaded page with [text] in the question field. *)
Definition typed (text : string) : Page := with_value text loaded_page.

(** The user has put the focus in the field and typed a question. *)
Definition focused_page : Page :=
  fst (run [Focus; Edit "What is X?"] loaded_page).

(** A question is sent, then the reload button is clicked before any
    response arrives. *)
Definition busy_page : Page :=
  fst (run [Edit "What is X?"; ClickSend 1700000000000; ClickReload]
           loaded_page).



(** The statistics have loaded with 42 sections and a reload is in flight. *)
Definition counted_page : Page :=
  fst (run [ Settle 0 (Resolved (JObj [("success", JBool true);
                                       ("sections_count", JNum 42)]));
             ClickReload ] loaded_page).

(** ** Further observations *)

Definition sends (e : Effect) : bool :=
  match e with SendRequest _ => true | _ => false end.

(** The three requests the script writes. *)
Definition stats_fetch : Fetch :=
  {| url := "/api/stats"; method := "GET"; headers := []; body := None |}.

Definition reload_fetch : Fetch :=
  {| url := "/api/reload"; method := "POST"; headers := []; body := None |}.

Definition ask_fetch (question : string) : Fetch :=
  {| url := "/api/ask"; method := "POST";
     headers := [("Content-Type", "application/json")];
     body := Some (stringify_question question) |}.

(** An entry with a lookup key. *)
Definition tagged (e : Element) : bool := negb (untagged e).


(** The page after the document [html] has loaded and [events] took place. *)
Definition page_after (html : Page) (events : list Event) : Page :=
  fst (run events (on_DOMContentLoaded html).(after)).

(** Every control is disabled exactly while a request of its kind is in
    flight. *)
Definition in_step (p : Page) : Prop :=
  p.(input_disabled) = Nat.eqb (asks_in_flight p) 1
  /\ p.(send_disabled) = Nat.eqb (asks_in_flight p) 1
  /\ p.(reload_disabled) = Nat.eqb (reloads_in_flight p) 1.


(** A text made of the one-byte white space only. *)
Definition all_white (s : string) : bool :=
  forallb Trim.ws1 (list_ascii_of_string s).

Definition BACKSLASH : ascii := "092"%char.

Definition printable (c : ascii) : bool := Nat.leb 32 (nat_of_ascii c).

Definition hex_value (c : ascii) : option nat :=
  let n := nat_of_ascii c in
  if Nat.leb 48 n && Nat.leb n 57 then Some (n - 48)%nat
  else if Nat.leb 97 n && Nat.leb n 102 then Some (n - 87)%nat
  else None.

(** Reads back what [Quote.escape_all] wrote: the inverse used to show that
    a request body determines its question. *)
Fixpoint unescape (s : string) : option string :=
  match s with
  | EmptyString => Some EmptyString
  | String c rest =>
      if Ascii.eqb c BACKSLASH then
        match rest with
        | EmptyString => None
        | String k rest1 =>
            let plain (a : ascii) (tail : string) :=
              option_map (String a) (unescape tail) in
            if Ascii.eqb k DQUOTE then plain DQUOTE rest1
            else if Ascii.eqb k BACKSLASH then plain BACKSLASH rest1
            else if Ascii.eqb k "b" then plain (ascii_of_nat 8) rest1
            else if Ascii.eqb k "t" then plain (ascii_of_nat 9) rest1
            else if Ascii.eqb k "n" then plain (ascii_of_nat 10) rest1
            else if Ascii.eqb k "f" then plain (ascii_of_nat 12) rest1
            else if Ascii.eqb k "r" then plain (ascii_of_nat 13) rest1
            else if Ascii.eqb k "u" then
              match rest1 with
              | String _ (String _ (String h (String l rest2))) =>
                  match hex_value h, hex_value l with
                  | Some x, Some y =>
                      option_map (String (ascii_of_nat (16 * x + y)))
                                 (unescape rest2)
                  | _, _ => None
                  end
              | _ => None
              end
            else None
        end
      else option_map (String c) (unescape rest)
  end.

(** ** Where the page record and the payloads are exact *)

(** Markup whose only tags are line breaks: the browser makes text and [br]
    elements of it, so no element with an id. *)
Fixpoint only_line_breaks (markup : string) : bool :=
  match markup with
  | EmptyString => true
  | String c rest =>
      if Ascii.eqb c "<"
      then String.prefix "br>" rest && only_line_breaks rest
      else only_line_breaks rest
  end.

Definition inert (e : Element) : bool := only_line_breaks e.(innerHTML).

(** A log in which a lookup by id can only find an entry itself. *)
Definition inert_log (p : Page) : bool := forallb inert p.(chat).

(** A payload whose numbers all have magnitude at most 2^53: JavaScript
    holds them exactly and prints them digit for digit. *)
Fixpoint safe_numbers (v : JSON) : bool :=
  match v with
  | JNum n => Z.abs n <=? 2 ^ 53
  | JArr items => forallb safe_numbers items
  | JObj members => forallb (fun kv => safe_numbers (snd kv)) members
  | _ => true
  end.

(** A text with no opening angle bracket. *)
Fixpoint has_angle (s : string) : bool :=
  match s with
  | EmptyString => false
  | String c rest => Ascii.eqb c "<" || has_angle rest
  end.

Definition safe_payload (o : Settlement) : bool :=
  match o with
  | Rejected => true
  | Resolved data => safe_numbers data
  end.

(** ** Symbolic execution *)

Arguments msg_key : simpl never.
Arguments trim : simpl never.
Arguments replace_newlines : simpl never.
Arguments stringify_question : simpl never.
Arguments decimal : simpl never.
Arguments member : simpl never.
Arguments truthy !v.
Arguments value_to_string !v.
Arguments remove_first : simpl never.
Arguments String.eqb : simpl nomatch.

Ltac unfold_dom :=
  unfold run_chain, settle, on_send_click, on_keypress, on_reload_click,
    on_DOMContentLoaded, sendQuestion, reloadDocuments, loadStats,
    ask_then, ask_catch, reload_then, reload_catch, stats_then, stats_catch,
    removeMessage, addMessage, property, string_of, str, fetch,
    appendChild, scroll_to_end, set_value, set_input_disabled,
    set_send_disabled, focus_input, set_reload_disabled, set_reload_text,
    set_stats_text, console_error, try_catch, bind, prepend, perform, read,
    ret, throw.

(** Splits on the next thing the run branches on, innermost first. *)
Ltac step_case :=
  match goal with
  | |- context [match ?x with _ => _ end] =>
      lazymatch x with
      | context [match _ with _ => _ end] => fail
      | _ => idtac
      end;
      match type of x with
      | JSON => destruct x
      | Settlement => destruct x
      | Chain => destruct x
      | bool => destruct x eqn:?
      | option _ => destruct x eqn:?
      | Value => destruct x eqn:?
      end
  end.

Ltac run_all := unfold_dom; cbn; repeat (step_case; cbn).

Lemma occurrences_app kind t1 t2 :
  occurrences kind (t1 ++ t2)%list
  = (occurrences kind t1 + occurrences kind t2)%nat.
Proof. unfold occurrences. now rewrite filter_app, length_app. Qed.

(** *** What settling each chain does to the controls *)

Lemma ask_chain_settles id o p :
  let r := run_chain (AskChain id) o p in
  r.(completion) = Normal tt
  /\ r.(after).(input_disabled) = false
  /\ r.(after).(send_disabled) = false
  /\ r.(after).(focused) = true
  /\ r.(after).(reload_disabled) = p.(reload_disabled)
  /\ r.(after).(reload_text) = p.(reload_text)
  /\ r.(after).(pending) = p.(pending).
Proof. run_all; repeat split; reflexivity. Qed.

Lemma ask_chain_finalizes_once id o p :
  let t := (run_chain (AskChain id) o p).(trace) in
  occurrences enables_input t = 1%nat
  /\ occurrences enables_send t = 1%nat
  /\ occurrences focuses_input t = 1%nat.
Proof. run_all; repeat split; reflexivity. Qed.

Lemma reload_chain_settles o p :
  let r := run_chain ReloadChain o p in
  r.(completion) = Normal tt
  /\ r.(after).(reload_disabled) = false
  /\ r.(after).(reload_text) = "Recharger la documentation"
  /\ r.(after).(input_disabled) = p.(input_disabled)
  /\ r.(after).(send_disabled) = p.(send_disabled)
  /\ r.(after).(pending) = p.(pending).
Proof. run_all; repeat split; reflexivity. Qed.

Lemma reload_chain_finalizes_once o p :
  let t := (run_chain ReloadChain o p).(trace) in
  occurrences enables_reload t = 1%nat
  /\ occurrences (writes_reload_label "Recharger la documentation") t = 1%nat.
Proof. run_all; repeat split; reflexivity. Qed.

Lemma stats_chain_settles o p :
  let r := run_chain StatsChain o p in
  r.(completion) = Normal tt
  /\ r.(after).(reload_disabled) = p.(reload_disabled)
  /\ r.(after).(reload_text) = p.(reload_text)
  /\ r.(after).(input_disabled) = p.(input_disabled)
  /\ r.(after).(send_disabled) = p.(send_disabled)
  /\ r.(after).(pending) = p.(pending).
Proof. run_all; repeat split; reflexivity. Qed.

(** *** What the two user operations do to the controls *)

Lemma sendQuestion_empty now p :
  trim p.(value) = "" ->
  sendQuestion now p = {| completion := Normal tt; after := p; trace := [] |}.
Proof.
  intros H. unfold sendQuestion, bind, read, prepend, ret. cbn.
  rewrite H. reflexivity.
Qed.

Lemma sendQuestion_submits now p :
  trim p.(value) <> "" ->
  let r := sendQuestion now p in
  r.(completion) = Normal tt
  /\ r.(after).(chat)
     = (p.(chat) ++ [entry "user" (trim p.(value)); placeholder now])%list
  /\ r.(after).(value) = ""
  /\ r.(after).(input_disabled) = true
  /\ r.(after).(send_disabled) = true
  /\ r.(after).(reload_disabled) = p.(reload_disabled)
  /\ r.(after).(reload_text) = p.(reload_text)
  /\ r.(after).(stats_text) = p.(stats_text)
  /\ r.(after).(pending)
     = (p.(pending)
        ++ [({| url := "/api/ask"; method := "POST";
                headers := [("Content-Type", "application/json")];
                body := Some (stringify_question (trim p.(value))) |},
             AskChain now)])%list.
Proof.
  intros H. apply String.eqb_neq in H.
  unfold sendQuestion, bind, read, prepend, ret. cbn.
  rewrite H. unfold_dom. cbn. rewrite <- app_assoc.
  repeat split; reflexivity.
Qed.

Lemma reloadDocuments_starts p :
  let r := reloadDocuments p in
  r.(completion) = Normal tt
  /\ r.(trace)
     = [SetReloadDisabled true; SetReloadText "Chargement en cours...";
        AppendChild (entry "system" "Rechargement de la documentation en cours...");
        ScrollToEnd;
        SendRequest {| url := "/api/reload"; method := "POST"; headers := [];
                       body := None |}]
  /\ r.(after).(reload_disabled) = true
  /\ r.(after).(reload_text) = "Chargement en cours..."
  /\ r.(after).(input_disabled) = p.(input_disabled)
  /\ r.(after).(send_disabled) = p.(send_disabled)
  /\ r.(after).(pending)
     = (p.(pending)
        ++ [({| url := "/api/reload"; method := "POST"; headers := [];
                body := None |}, ReloadChain)])%list.
Proof. unfold_dom. cbn. repeat split; reflexivity. Qed.

(** A submission with a non-empty trimmed question performs these side
    effects, in this order and no others: it appends a user entry with the
    trimmed question, line feeds as line breaks; it clears the field,
    disables it and disables the send button; it appends an assistant entry
    reading [Recherche en cours...], whose lookup key is [msg-] followed by
    the clock reading, unless that reading is 0, in which case the entry has
    no key; it sends a POST to [/api/ask] whose JSON body holds the
    question. *)
Lemma sendQuestion_effects_in_order :
  forall (p : Page) (now : Z),
    trim p.(value) <> "" ->
    (sendQuestion now p).(trace)
    = [ AppendChild {| className := "message user"; elem_id := None;
                       innerHTML := replace_newlines (trim p.(value)) |};
        ScrollToEnd;
        SetValue "";
        SetInputDisabled true;
        SetSendDisabled true;
        AppendChild {| className := "message assistant";
                       elem_id := if now =? 0 then None
                                  else Some ("msg-" ++ decimal now);
                       innerHTML := "Recherche en cours..." |};
        ScrollToEnd;
        SendRequest {| url := "/api/ask"; method := "POST";
                       headers := [("Content-Type", "application/json")];
                       body := Some (stringify_question (trim p.(value))) |} ].
Proof.
  intros p now H. apply String.eqb_neq in H.
  unfold sendQuestion, bind, read, prepend, ret. cbn.
  rewrite H. unfold_dom. cbn. reflexivity.
Qed.

(** *** Requests in flight *)

Lemma filter_remove_nth {A} (f : A -> bool) n l x :
  nth_error l n = Some x ->
  List.length (filter f (remove_nth n l))
  = (List.length (filter f l) - (if f x then 1 else 0))%nat.
Proof.
  unfold remove_nth. revert l. induction n as [|n IH]; intros [|y l] H;
    cbn in H; try discriminate.
  - injection H as ->. cbn. destruct (f x); cbn; lia.
  - specialize (IH l H). cbn [firstn skipn app filter] in *.
    destruct (f y); cbn [List.length]; [|exact IH].
    rewrite IH. destruct (f x) eqn:Hx; [|lia].
    assert (1 <= List.length (filter f l))%nat; [|lia].
    clear IH. revert l H. induction n as [|n IHn]; intros [|z l] H;
      cbn in H; try discriminate.
    + injection H as ->. cbn. rewrite Hx. cbn. lia.
    + cbn. specialize (IHn l H). destruct (f z); cbn; lia.
Qed.

Lemma filter_snoc_length {A} (f : A -> bool) l x :
  List.length (filter f (l ++ [x])%list)
  = (List.length (filter f l) + (if f x then 1 else 0))%nat.
Proof. rewrite filter_app, length_app. cbn. destruct (f x); reflexivity. Qed.

Lemma serialized_loaded html :
  html.(pending) = [] -> serialized (on_DOMContentLoaded html).(after).
Proof.
  intros H. unfold serialized, asks_in_flight, reloads_in_flight.
  unfold_dom. cbn. rewrite H. cbn. split; lia.
Qed.

Lemma serialized_sendQuestion now p :
  (p.(input_disabled) && p.(send_disabled)) = false ->
  serialized p -> serialized (sendQuestion now p).(after).
Proof.
  intros Hen [Ha Hr]. rewrite Hen in Ha.
  destruct (string_dec (trim p.(value)) "") as [He|Hne].
  - rewrite (sendQuestion_empty now p He). cbn. split; [rewrite Hen|]; assumption.
  - pose proof (sendQuestion_submits now p Hne) as H. cbv zeta in H.
    destruct H as (_ & _ & _ & Hi & Hs & Hrd & Hrt & _ & Hp).
    unfold serialized, asks_in_flight, reloads_in_flight in *.
    rewrite Hi, Hs, Hrd, Hrt, Hp, !filter_snoc_length. cbn. split; lia.
Qed.

Lemma serialized_reloadDocuments p :
  p.(reload_disabled) = false ->
  serialized p -> serialized (reloadDocuments p).(after).
Proof.
  intros Hen [Ha Hr]. rewrite Hen in Hr. cbn in Hr.
  pose proof (reloadDocuments_starts p) as H. cbv zeta in H.
  destruct H as (_ & _ & Hrd & Hrt & Hi & Hs & Hp).
  unfold serialized, asks_in_flight, reloads_in_flight in *.
  rewrite Hi, Hs, Hrd, Hrt, Hp, !filter_snoc_length. cbn. split; lia.
Qed.

Lemma serialized_settle n o p f c :
  nth_error p.(pending) n = Some (f, c) ->
  serialized p ->
  serialized (run_chain c o (with_pending (remove_nth n) p)).(after).
Proof.
  intros Hn [Ha Hr].
  set (q := with_pending (remove_nth n) p).
  assert (Hqa : asks_in_flight q
                = (asks_in_flight p - if is_ask (f, c) then 1 else 0)%nat)
    by (apply filter_remove_nth; exact Hn).
  assert (Hqr : reloads_in_flight q
                = (reloads_in_flight p - if is_reload (f, c) then 1 else 0)%nat)
    by (apply filter_remove_nth; exact Hn).
  unfold serialized, asks_in_flight, reloads_in_flight in *.
  destruct c as [| |id].
  - pose proof (stats_chain_settles o q) as H. cbv zeta in H.
    destruct H as (_ & Hrd & Hrt & Hi & Hs & Hp).
    rewrite Hi, Hs, Hrd, Hrt, Hp, Hqa, Hqr. cbn.
    rewrite !Nat.sub_0_r. split; assumption.
  - pose proof (reload_chain_settles o q) as H. cbv zeta in H.
    destruct H as (_ & Hrd & Hrt & Hi & Hs & Hp).
    rewrite Hi, Hs, Hrd, Hp, Hqa, Hqr. cbn.
    rewrite Nat.sub_0_r. split; [assumption|].
    destruct (_ && _) in Hr; lia.
  - pose proof (ask_chain_settles id o q) as H. cbv zeta in H.
    destruct H as (_ & Hi & Hs & _ & Hrd & Hrt & Hp).
    rewrite Hi, Hs, Hrd, Hrt, Hp, Hqa, Hqr. cbn.
    rewrite Nat.sub_0_r. split; [|assumption].
    destruct (_ && _) in Ha; lia.
Qed.

Lemma serialized_dispatch e p :
  serialized p -> serialized (dispatch e p).(after).
Proof.
  intros Hp. destruct e as [text| | |now|key now| |n o]; cbn.
  - destruct p.(input_disabled); exact Hp.
  - destruct p.(input_disabled); exact Hp.
  - exact Hp.
  - destruct p.(send_disabled) eqn:Hs; [exact Hp|].
    apply serialized_sendQuestion; [|exact Hp].
    rewrite Hs. apply andb_false_r.
  - destruct p.(input_disabled) eqn:Hi; [exact Hp|].
    destruct p.(focused); [|exact Hp]. cbn. unfold on_keypress.
    destruct (String.eqb key "Enter"); [|exact Hp].
    apply serialized_sendQuestion; [|exact Hp].
    rewrite Hi. reflexivity.
  - destruct p.(reload_disabled) eqn:Hr; [exact Hp|].
    apply serialized_reloadDocuments; assumption.
  - destruct (nth_error p.(pending) n) as [[f c]|] eqn:Hn; [|exact Hp].
    eapply serialized_settle; eassumption.
Qed.

Lemma reachable_serialized p : reachable p -> serialized p.
Proof.
  induction 1 as [html H|p e _ IH].
  - apply serialized_loaded; exact H.
  - apply serialized_dispatch; exact IH.
Qed.

Lemma reachable_run events p : reachable p -> reachable (fst (run events p)).
Proof.
  revert p. induction events as [|e rest IH]; intros p Hp; cbn; [exact Hp|].
  specialize (IH _ (reach_event e Hp)).
  destruct (run rest (dispatch e p).(after)). exact IH.
Qed.

Lemma reachable_loaded_page : reachable loaded_page.
Proof. apply (reach_loaded blank_page). reflexivity. Qed.

(** *** Looking entries up and removing them *)

Lemma find_app_absent (key : string) l l' :
  (forall e, In e l -> has_id key e = false) ->
  find (has_id key) (l ++ l')%list = find (has_id key) l'.
Proof.
  induction l as [|x l IH]; intros H; cbn; [reflexivity|].
  rewrite (H x (or_introl eq_refl)). apply IH.
  intros e He. apply H. right. exact He.
Qed.



(** Removal takes an entry with a lookup key, so the entries without one all
    stay, in their order. *)
Lemma remove_first_keeps_untagged key l :
  filter untagged (remove_first key l) = filter untagged l.
Proof.
  induction l as [|x l IH]; [reflexivity|].
  unfold remove_first. fold remove_first.
  destruct (has_id key x) eqn:Hx.
  - cbn. unfold has_id in Hx. unfold untagged at 2.
    destruct x.(elem_id); [reflexivity|discriminate].
  - cbn. rewrite IH. reflexivity.
Qed.

Lemma removeMessage_absent id q :
  getElementById (msg_key id) q = None ->
  removeMessage id q = {| completion := Normal tt; after := q; trace := [] |}.
Proof.
  intros H. unfold removeMessage, bind, read. rewrite H. reflexivity.
Qed.



Lemma in_flight_ask_disables q :
  reachable q -> asks_in_flight q <> 0%nat ->
  q.(input_disabled) = true /\ q.(send_disabled) = true.
Proof.
  intros Hq Hn. destruct (reachable_serialized Hq) as [Ha _].
  destruct (q.(input_disabled) && q.(send_disabled)) eqn:E; [|lia].
  apply andb_true_iff in E. exact E.
Qed.

Lemma in_flight_reload_disables q :
  reachable q -> reloads_in_flight q <> 0%nat ->
  q.(reload_disabled) = true /\ q.(reload_text) = "Chargement en cours...".
Proof.
  intros Hq Hn. destruct (reachable_serialized Hq) as [_ Hr].
  destruct (q.(reload_disabled) && _) eqn:E in Hr; [|lia].
  apply andb_true_iff in E. destruct E as [E1 E2].
  apply String.eqb_eq in E2. split; assumption.
Qed.

(** *** Line breaks *)






(** *** Statistics after a failed reload *)

(** A failed reload whose payload has no count still writes the statistics,
    with [undefined] where the count should be. *)
Lemma reload_failure_without_count q members :
  truthy (member "success" members) = false ->
  member "sections_count" members = None ->
  (run_chain ReloadChain (Resolved (JObj members)) q).(after).(stats_text)
  = "undefined sections de documentation disponibles".
Proof.
  intros H1 H2. unfold_dom. cbn. rewrite H1. cbn. rewrite H2. reflexivity.
Qed.

(** * Properties of the widget *)

(** C1.  A submission with a non-empty question leaves the field and the
    send button disabled with its request in flight; on every page the
    script can reach, a question in flight means both are disabled, and a
    page where both are disabled takes no submission from a click or a key.
    However the request settles (success, application error, rejection, a
    payload that cannot be handled), its callbacks complete, enable the
    field once, enable the send button once and focus the field once, and
    leave both enabled and the focus in the field. *)
Theorem C1_controls_disabled_until_settled_then_enabled_once :
  forall (p : Page) (now : Z),
    trim p.(value) <> "" ->
    let p1 := (sendQuestion now p).(after) in
    (p1.(input_disabled) = true
     /\ p1.(send_disabled) = true
     /\ asks_in_flight p1 = S (asks_in_flight p))
    /\ (forall q : Page,
           reachable q -> asks_in_flight q <> 0%nat ->
           q.(input_disabled) = true /\ q.(send_disabled) = true)
    /\ (forall (q : Page) (key : string) (t : Z),
           q.(input_disabled) = true -> q.(send_disabled) = true ->
           dispatch (ClickSend t) q
           = {| completion := Normal tt; after := q; trace := [] |}
           /\ dispatch (Keypress key t) q
              = {| completion := Normal tt; after := q; trace := [] |})
    /\ (forall (q : Page) (id : Z) (o : Settlement),
           let r := run_chain (AskChain id) o q in
           r.(completion) = Normal tt
           /\ occurrences enables_input r.(trace) = 1%nat
           /\ occurrences enables_send r.(trace) = 1%nat
           /\ occurrences focuses_input r.(trace) = 1%nat
           /\ r.(after).(input_disabled) = false
           /\ r.(after).(send_disabled) = false
           /\ r.(after).(focused) = true).
Proof.
  intros p now H p1. split; [|split; [|split]].
  - pose proof (sendQuestion_submits now p H) as S. cbv zeta in S.
    destruct S as (_ & _ & _ & Hi & Hs & _ & _ & _ & Hp).
    subst p1. unfold asks_in_flight. rewrite Hi, Hs, Hp, filter_snoc_length.
    cbn. repeat split. lia.
  - apply in_flight_ask_disables.
  - intros q key t Hi Hs. cbn. rewrite Hi, Hs. split; reflexivity.
  - intros q id o r.
    pose proof (ask_chain_settles id o q) as S.
    pose proof (ask_chain_finalizes_once id o q) as F. cbv zeta in S, F.
    destruct S as (Hc & Hi & Hs & Hf & _). destruct F as (F1 & F2 & F3).
    subst r. repeat split; assumption.
Qed.

Lemma C1_witness :
  trim (typed "What is X?").(value) <> ""
  /\ (sendQuestion 1700000000000 (typed "What is X?")).(after).(input_disabled)
     = true.
Proof.
  assert (H : trim (typed "What is X?").(value) <> "")
    by (vm_compute; discriminate).
  split; [exact H|].
  exact (proj1 (proj1
    (C1_controls_disabled_until_settled_then_enabled_once
       (typed "What is X?") 1700000000000 H))).
Defined.




(** C3.  The code at the failing input, a question submitted when
    [Date.now()] reads 0: the side effects come in the order the property
    gives, but the loading entry is appended without a lookup key, so it
    carries no correlation id and nothing is found under [msg-0]; one
    millisecond later the entry is tagged [msg-1]. *)
Theorem C3_placeholder_untagged_at_clock_zero :
  let r := sendQuestion 0 (typed "What is X?") in
  trim (typed "What is X?").(value) <> ""
  /\ r.(trace)
     = [ AppendChild (entry "user" "What is X?");
         ScrollToEnd;
         SetValue "";
         SetInputDisabled true;
         SetSendDisabled true;
         AppendChild {| className := "message assistant"; elem_id := None;
                        innerHTML := "Recherche en cours..." |};
         ScrollToEnd;
         SendRequest {| url := "/api/ask"; method := "POST";
                        headers := [("Content-Type", "application/json")];
                        body := Some (stringify_question "What is X?") |} ]
  /\ getElementById (msg_key 0) r.(after) = None
  /\ Forall (fun e => e.(elem_id) = None) r.(after).(chat)
  /\ nth_error (sendQuestion 1 (typed "What is X?")).(trace) 5
     = Some (AppendChild {| className := "message assistant";
                            elem_id := Some "msg-1";
                            innerHTML := "Recherche en cours..." |}).
Proof.
  cbv zeta. split; [vm_compute; discriminate|].
  split; [reflexivity|]. split; [reflexivity|].
  split; [vm_compute; repeat constructor|reflexivity].
Qed.

(** C4.  The code at the failing input: the statistics read 42 sections, the
    reload in flight resolves with [{success: false}], and the statistics
    then read [undefined sections de documentation disponibles]. *)
Theorem C4_failed_reload_overwrites_stats :
  counted_page.(stats_text) = "42 sections de documentation disponibles"
  /\ (fst (run [Settle 0 (Resolved (JObj [("success", JBool false)]))]
               counted_page)).(stats_text)
     = "undefined sections de documentation disponibles"
  /\ (fst (run [Settle 0 Rejected] counted_page)).(stats_text)
     = counted_page.(stats_text).
Proof. repeat split. Qed.

(** C5, as amended.  On every page the script can reach, at most one
    question POST and at most one reload POST are in flight.  (The two kinds
    do not exclude each other: each operation disables its own controls
    only.) *)
Theorem C5_one_request_of_each_kind_in_flight :
  forall p : Page,
    reachable p ->
    (asks_in_flight p <= 1)%nat /\ (reloads_in_flight p <= 1)%nat.
Proof.
  intros p H. destruct (reachable_serialized H) as [Ha Hr].
  split.
  - destruct (_ && _) in Ha; lia.
  - destruct (_ && _) in Hr; lia.
Qed.

Lemma C5_witness :
  reachable busy_page
  /\ (asks_in_flight busy_page <= 1)%nat
  /\ (reloads_in_flight busy_page <= 1)%nat.
Proof.
  assert (H : reachable busy_page)
    by (apply reachable_run; exact reachable_loaded_page).
  split; [exact H|].
  exact (C5_one_request_of_each_kind_in_flight H).
Defined.

(** C5 as stated fails: with a question in flight the reload button is still
    enabled, and clicking it puts a second POST in flight. *)
Lemma C5_counterexample :
  reachable busy_page
  /\ asks_in_flight busy_page = 1%nat
  /\ reloads_in_flight busy_page = 1%nat
  /\ posts_in_flight busy_page = 2%nat
  /\ ~ (forall p : Page, reachable p -> (posts_in_flight p <= 1)%nat).
Proof.
  assert (H : reachable busy_page)
    by (apply reachable_run; exact reachable_loaded_page).
  split; [exact H|]. split; [reflexivity|]. split; [reflexivity|].
  split; [reflexivity|].
  intros C. specialize (C busy_page H).
  change (posts_in_flight busy_page) with 2%nat in C. lia.
Qed.

(** C6.  When the field holds nothing, or white space only, [sendQuestion]
    changes nothing on the page and performs no side effect: no entry is
    appended, no request is sent, the field and the send button stay as they
    were.  The same holds for a click on the send button and for any key
    pressed in the field, which reach [sendQuestion] or nothing. *)
Theorem C6_empty_question_does_nothing :
  forall (p : Page) (now : Z),
    trim p.(value) = "" ->
    sendQuestion now p = {| completion := Normal tt; after := p; trace := [] |}
    /\ dispatch (ClickSend now) p
       = {| completion := Normal tt; after := p; trace := [] |}
    /\ forall key,
         dispatch (Keypress key now) p
         = {| completion := Normal tt; after := p; trace := [] |}.
Proof.
  intros p now H. pose proof (sendQuestion_empty now p H) as E.
  split; [exact E|]. split.
  - cbn. destruct p.(send_disabled); [reflexivity|exact E].
  - intros key. cbn. destruct (p.(input_disabled) || negb p.(focused));
      [reflexivity|]. unfold on_keypress.
    destruct (String.eqb key "Enter"); [exact E|reflexivity].
Qed.

Lemma C6_witness :
  trim (typed "   ").(value) = ""
  /\ sendQuestion 1700000000000 (typed "   ")
     = {| completion := Normal tt; after := typed "   "; trace := [] |}.
Proof.
  split; [reflexivity|].
  apply (C6_empty_question_does_nothing (typed "   ") 1700000000000).
  reflexivity.
Defined.


(** C8.  On a page whose reload button reads [Recharger la documentation],
    [reloadDocuments] first disables the button and sets its text to
    [Chargement en cours...], and puts one more reload in flight; on every
    page the script can reach, a reload in flight means the button is
    disabled and reads the in-progress label, and a disabled button takes no
    click.  However the request settles, its callbacks complete, enable the
    button once and write the label the button had once, leaving it enabled
    under that label. *)
Theorem C8_reload_button_disabled_then_restored_once :
  forall p : Page,
    p.(reload_text) = "Recharger la documentation" ->
    let r1 := reloadDocuments p in
    (firstn 2 r1.(trace)
     = [SetReloadDisabled true; SetReloadText "Chargement en cours..."]
     /\ r1.(after).(reload_disabled) = true
     /\ r1.(after).(reload_text) = "Chargement en cours..."
     /\ reloads_in_flight r1.(after) = S (reloads_in_flight p))
    /\ (forall q : Page,
           reachable q -> reloads_in_flight q <> 0%nat ->
           q.(reload_disabled) = true
           /\ q.(reload_text) = "Chargement en cours...")
    /\ (forall q : Page,
           q.(reload_disabled) = true ->
           dispatch ClickReload q
           = {| completion := Normal tt; after := q; trace := [] |})
    /\ (forall (q : Page) (o : Settlement),
           let r := run_chain ReloadChain o q in
           r.(completion) = Normal tt
           /\ occurrences enables_reload r.(trace) = 1%nat
           /\ occurrences (writes_reload_label p.(reload_text)) r.(trace) = 1%nat
           /\ r.(after).(reload_disabled) = false
           /\ r.(after).(reload_text) = p.(reload_text)).
Proof.
  intros p L r1. split; [|split; [|split]].
  - pose proof (reloadDocuments_starts p) as S. cbv zeta in S.
    destruct S as (_ & Ht & Hd & Hx & _ & _ & Hp).
    subst r1. unfold reloads_in_flight.
    rewrite Ht, Hd, Hx, Hp, filter_snoc_length. cbn.
    repeat split. lia.
  - apply in_flight_reload_disables.
  - intros q Hd. cbn. rewrite Hd. reflexivity.
  - intros q o r.
    pose proof (reload_chain_settles o q) as S.
    pose proof (reload_chain_finalizes_once o q) as F. cbv zeta in S, F.
    destruct S as (Hc & Hd & Hx & _). destruct F as (F1 & F2).
    subst r. rewrite L. repeat split; assumption.
Qed.

Lemma C8_witness :
  loaded_page.(reload_text) = "Recharger la documentation"
  /\ forall o : Settlement,
       (run_chain ReloadChain o (reloadDocuments loaded_page).(after))
         .(after).(reload_text)
       = loaded_page.(reload_text).
Proof.
  split; [reflexivity|]. intros o.
  exact (proj2 (proj2 (proj2 (proj2 (proj2 (proj2 (proj2
    (C8_reload_button_disabled_then_restored_once loaded_page eq_refl)))
    (reloadDocuments loaded_page).(after) o))))).
Defined.

(** C9.  In a field that has the focus, the Enter key runs [sendQuestion],
    exactly as a click on the send button does: the two events leave the same
    page and the same side effects.  Any other key runs nothing. *)
Theorem C9_enter_key_submits_like_click :
  forall (p : Page) (now : Z),
    p.(input_disabled) = false ->
    p.(focused) = true ->
    p.(send_disabled) = false ->
    dispatch (Keypress "Enter" now) p = sendQuestion now p
    /\ dispatch (ClickSend now) p = sendQuestion now p
    /\ dispatch (Keypress "Enter" now) p = dispatch (ClickSend now) p
    /\ forall (q : Page) (key : string),
         key <> "Enter" ->
         dispatch (Keypress key now) q
         = {| completion := Normal tt; after := q; trace := [] |}.
Proof.
  intros p now Hi Hf Hs.
  assert (K : dispatch (Keypress "Enter" now) p = sendQuestion now p)
    by (cbn; rewrite Hi, Hf; reflexivity).
  assert (C : dispatch (ClickSend now) p = sendQuestion now p)
    by (cbn; rewrite Hs; reflexivity).
  repeat split; try assumption; [congruence|].
  intros q key Hk. cbn.
  destruct (q.(input_disabled) || negb q.(focused)); [reflexivity|].
  unfold on_keypress. apply String.eqb_neq in Hk. rewrite Hk. reflexivity.
Qed.

Lemma C9_witness :
  focused_page.(input_disabled) = false
  /\ focused_page.(focused) = true
  /\ focused_page.(send_disabled) = false
  /\ dispatch (Keypress "Enter" 1700000000000) focused_page
     = dispatch (ClickSend 1700000000000) focused_page.
Proof.
  split; [reflexivity|]. split; [reflexivity|]. split; [reflexivity|].
  apply (C9_enter_key_submits_like_click focused_page 1700000000000);
    reflexivity.
Defined.

(** C10.  [addMessage] gives the new entry the lookup key [msg-<id>] exactly
    when the correlation id is truthy: none for an omitted id and none for
    the id 0.  An entry created with the id 0 is therefore never what
    [removeMessage] finds, whatever id it is called with, and stays in the
    log through every call of [removeMessage]; on a log with no entry under
    [msg-0], where neither the markup of the log nor that of the new entry
    makes an element but line breaks, [removeMessage(0)] does nothing at
    all. *)
Theorem C10_id_zero_is_never_removed :
  forall (type text : string),
    let e0 := {| className := "message " ++ type; elem_id := None;
                 innerHTML := replace_newlines text |} in
    (forall (id : option Z) (p : Page),
        (addMessage type (str text) id p).(after).(chat)
        = (p.(chat)
           ++ [ {| className := ("message " ++ type)%string;
                   elem_id := match id with
                              | Some n => if n =? 0 then None
                                          else Some ("msg-" ++ decimal n)%string
                              | None => None
                              end;
                   innerHTML := replace_newlines text |} ])%list)
    /\ (forall p : Page,
           (addMessage type (str text) (Some 0) p).(after).(chat)
           = (p.(chat) ++ [e0])%list)
    /\ (forall (k : Z) (q : Page), getElementById (msg_key k) q <> Some e0)
    /\ (forall (k : Z) (q : Page),
           In e0 q.(chat) -> In e0 (removeMessage k q).(after).(chat))
    /\ (forall p : Page,
           (forall e, In e p.(chat) -> has_id (msg_key 0) e = false) ->
           inert_log p = true ->
           inert e0 = true ->
           let p' := (addMessage type (str text) (Some 0) p).(after) in
           removeMessage 0 p'
           = {| completion := Normal tt; after := p'; trace := [] |}).
Proof.
  intros type text e0. split; [|split; [|split; [|split]]].
  - intros [n|] p; reflexivity.
  - intros p. reflexivity.
  - intros k q H. unfold getElementById in H.
    apply find_some in H. destruct H as [_ H]. discriminate H.
  - intros k q H.
    assert (F : In e0 (filter untagged q.(chat)))
      by (apply filter_In; split; [exact H|reflexivity]).
    unfold removeMessage, bind, read, prepend, perform, ret. cbn.
    destruct (getElementById (msg_key k) q); cbn; [|exact H].
    rewrite <- (remove_first_keeps_untagged (msg_key k)) in F.
    apply filter_In in F. exact (proj1 F).
  - intros p H _ _ p'.
    assert (N : getElementById (msg_key 0) p' = None).
    { unfold getElementById. subst p'. unfold_dom. cbn.
      rewrite find_app_absent by exact H. reflexivity. }
    apply removeMessage_absent. exact N.
Qed.

Lemma C10_witness :
  (forall e, In e loaded_page.(chat) -> has_id (msg_key 0) e = false)
  /\ inert_log loaded_page = true
  /\ inert (entry "assistant" "Recherche en cours...") = true
  /\ let p' := (addMessage "assistant" (str "Recherche en cours...") (Some 0)
                  loaded_page).(after) in
     removeMessage 0 p'
     = {| completion := Normal tt; after := p'; trace := [] |}.
Proof.
  assert (H : forall e, In e loaded_page.(chat) -> has_id (msg_key 0) e = false)
    by (intros e []).
  split; [exact H|]. split; [reflexivity|]. split; [reflexivity|].
  exact (proj2 (proj2 (proj2 (proj2
           (C10_id_zero_is_never_removed "assistant" "Recherche en cours..."))))
           loaded_page H eq_refl eq_refl).
Defined.

(** * Further properties of the script *)

(** ** Errors and requests *)

Lemma sendQuestion_completes now p :
  (sendQuestion now p).(completion) = Normal tt.
Proof.
  destruct (string_dec (trim p.(value)) "") as [E|N].
  - rewrite (sendQuestion_empty now p E). reflexivity.
  - exact (proj1 (sendQuestion_submits now p N)).
Qed.

Lemma run_chain_completes c o p : (run_chain c o p).(completion) = Normal tt.
Proof.
  destruct c.
  - exact (proj1 (stats_chain_settles o p)).
  - exact (proj1 (reload_chain_settles o p)).
  - exact (proj1 (ask_chain_settles _ o p)).
Qed.

(** X1.  No listener and no callback lets an exception escape: whatever the
    event, whatever the page and whatever a response holds, the handler
    completes normally.  An exception thrown while a payload is handled is
    caught by the error callback of its chain, and the error callbacks throw
    nothing. *)
Theorem handlers_never_throw :
  forall (e : Event) (p : Page),
    (dispatch e p).(completion) = Normal tt
    /\ (on_DOMContentLoaded p).(completion) = Normal tt.
Proof.
  intros e p. split; [|reflexivity].
  destruct e as [text| | |now|key now| |n o]; cbn.
  - destruct p.(input_disabled); reflexivity.
  - destruct p.(input_disabled); reflexivity.
  - reflexivity.
  - destruct p.(send_disabled); [reflexivity|apply sendQuestion_completes].
  - destruct (p.(input_disabled) || negb p.(focused)); [reflexivity|].
    unfold on_keypress. destruct (String.eqb key "Enter");
      [apply sendQuestion_completes|reflexivity].
  - destruct p.(reload_disabled); [reflexivity|].
    exact (proj1 (reloadDocuments_starts p)).
  - destruct (nth_error p.(pending) n) as [[f c]|]; [|reflexivity].
    apply run_chain_completes.
Qed.

Lemma run_chain_sends_nothing c o p :
  filter sends (run_chain c o p).(trace) = [].
Proof. run_all; reflexivity. Qed.

Lemma sendQuestion_sends now p :
  filter sends (sendQuestion now p).(trace) = []
  \/ filter sends (sendQuestion now p).(trace)
     = [SendRequest (ask_fetch (trim p.(value)))].
Proof.
  destruct (string_dec (trim p.(value)) "") as [E|N].
  - left. rewrite (sendQuestion_empty now p E). reflexivity.
  - right. rewrite (@sendQuestion_effects_in_order p now N). reflexivity.
Qed.

(** X2.  The requests of the script: loading the page sends the statistics
    GET and nothing else; an event sends at most one request, which is the
    reload POST without a body or the question POST whose JSON body is made
    from the trimmed field; and the callbacks of a settled request never send
    one, so nothing is retried and the statistics are never fetched again. *)
Theorem requests_sent_by_events :
  forall (e : Event) (p : Page),
    (on_DOMContentLoaded p).(trace) = [SendRequest stats_fetch]
    /\ (filter sends (dispatch e p).(trace) = []
        \/ filter sends (dispatch e p).(trace) = [SendRequest reload_fetch]
        \/ filter sends (dispatch e p).(trace)
           = [SendRequest (ask_fetch (trim p.(value)))])
    /\ forall (n : nat) (o : Settlement),
         filter sends (dispatch (Settle n o) p).(trace) = [].
Proof.
  intros e p. split; [reflexivity|]. split.
  - destruct e as [text| | |now|key now| |n o];
      unfold dispatch, on_send_click, on_keypress, on_reload_click.
    + left. destruct p.(input_disabled); reflexivity.
    + left. destruct p.(input_disabled); reflexivity.
    + left. reflexivity.
    + destruct p.(send_disabled); [left; reflexivity|].
      destruct (sendQuestion_sends now p) as [H|H]; rewrite H; auto.
    + destruct (p.(input_disabled) || negb p.(focused)); [left; reflexivity|].
      destruct (String.eqb key "Enter");
        [|left; reflexivity].
      destruct (sendQuestion_sends now p) as [H|H]; rewrite H; auto.
    + destruct p.(reload_disabled); [left; reflexivity|].
      right. left.
      rewrite (proj1 (proj2 (reloadDocuments_starts p))). reflexivity.
    + left. destruct (nth_error p.(pending) n) as [[f c]|]; [|reflexivity].
      apply run_chain_sends_nothing.
  - intros n o. cbn.
    destruct (nth_error p.(pending) n) as [[f c]|]; [|reflexivity].
    apply run_chain_sends_nothing.
Qed.

(** ** The statistics *)

(** X3.  Settling the statistics request changes the text of the statistics
    display and nothing else on the page: no entry is appended or removed, no
    control changes.  The text is [Erreur de connexion], [Erreur lors du
    chargement des statistiques], or something followed by [ sections de
    documentation disponibles]. *)
Theorem stats_settlement_writes_only_the_display :
  forall (o : Settlement) (p : Page),
    exists text : string,
      (run_chain StatsChain o p).(after) = with_stats_text text p
      /\ occurrences appends (run_chain StatsChain o p).(trace) = 0%nat
      /\ (text = "Erreur de connexion"
          \/ text = "Erreur lors du chargement des statistiques"
          \/ exists n : string,
               text = n ++ " sections de documentation disponibles").
Proof.
  intros o p. run_all;
    (eexists; split; [reflexivity|]; split; [reflexivity|]);
    first [ left; reflexivity
          | right; left; reflexivity
          | right; right; eexists; reflexivity ].
Qed.

(** X4.  What the statistics display shows for a payload that is an object
    whose numbers are printed exactly: with a truthy [success], the count of
    the payload as a template literal prints it ([undefined] when the payload
    has none) before [ sections de documentation disponibles], or [Erreur de
    connexion] when the count cannot be printed; without a truthy [success],
    [Erreur lors du chargement des statistiques], whatever else the payload
    holds. *)
Theorem stats_display_for_object_payload :
  forall (members : list (string * JSON)) (p : Page),
    safe_payload (Resolved (JObj members)) = true ->
    (run_chain StatsChain (Resolved (JObj members)) p).(after).(stats_text)
    = if truthy (member "success" members) then
        match value_to_string (member "sections_count" members) with
        | Some n => n ++ " sections de documentation disponibles"
        | None => "Erreur de connexion"
        end
      else "Erreur lors du chargement des statistiques".
Proof. intros members p _. run_all; reflexivity. Qed.

Lemma stats_display_for_object_payload_witness :
  let members := [("success", JBool true); ("sections_count", JNum 42)] in
  safe_payload (Resolved (JObj members)) = true
  /\ (run_chain StatsChain (Resolved (JObj members)) loaded_page)
       .(after).(stats_text)
     = "42 sections de documentation disponibles".
Proof.
  cbv zeta. split; [reflexivity|].
  exact (@stats_display_for_object_payload
           [("success", JBool true); ("sections_count", JNum 42)]
           loaded_page eq_refl).
Defined.

(** ** Reloading the documentation *)

Lemma nth_error_snoc {A} (l : list A) (x : A) :
  nth_error (l ++ [x])%list (List.length l) = Some x.
Proof. induction l as [|y l IH]; [reflexivity|exact IH]. Qed.

Lemma remove_nth_snoc {A} (l : list A) (x : A) :
  remove_nth (List.length l) (l ++ [x])%list = l.
Proof.
  unfold remove_nth. induction l as [|y l IH]; [reflexivity|].
  cbn [List.length app firstn skipn] in *. f_equal. exact IH.
Qed.

(** X5.  A reload whose request is rejected, from click to settlement, on a
    page where the reload button is enabled: the log gains the start notice
    and then [Erreur de connexion lors du rechargement.]; the statistics
    display, the field and the send button are as before; the reload button
    is enabled again under [Recharger la documentation]; the request is no
    longer in flight. *)
Theorem reload_rejected_cycle :
  forall p : Page,
    p.(reload_disabled) = false ->
    let q := fst (run [ClickReload; Settle (List.length p.(pending)) Rejected] p) in
    q.(chat)
    = (p.(chat)
       ++ [ entry "system" "Rechargement de la documentation en cours...";
            entry "system" "Erreur de connexion lors du rechargement." ])%list
    /\ q.(stats_text) = p.(stats_text)
    /\ q.(reload_disabled) = false
    /\ q.(reload_text) = "Recharger la documentation"
    /\ q.(pending) = p.(pending)
    /\ q.(value) = p.(value)
    /\ q.(input_disabled) = p.(input_disabled)
    /\ q.(send_disabled) = p.(send_disabled).
Proof.
  intros p H q. subst q.
  unfold run, dispatch, on_reload_click. rewrite H.
  unfold_dom. cbn. rewrite nth_error_snoc. cbn.
  rewrite remove_nth_snoc, <- app_assoc.
  repeat split; reflexivity.
Qed.

Lemma reload_rejected_cycle_witness :
  loaded_page.(reload_disabled) = false
  /\ (fst (run [ClickReload; Settle 1 Rejected] loaded_page)).(stats_text)
     = loaded_page.(stats_text).
Proof.
  split; [reflexivity|].
  exact (proj1 (proj2 (@reload_rejected_cycle loaded_page eq_refl))).
Defined.

(** X6.  A reload that succeeds reports one count in two places: for a
    payload with a truthy [success] whose numbers are printed exactly and
    whose count prints as [n], the log gains
    the one entry [Rechargement terminé. n sections disponibles.] and the
    statistics display reads [n sections de documentation disponibles]; the
    button is enabled again. *)
Theorem reload_success_reports_the_count :
  forall (members : list (string * JSON)) (n : string) (p : Page),
    safe_payload (Resolved (JObj members)) = true ->
    truthy (member "success" members) = true ->
    value_to_string (member "sections_count" members) = Some n ->
    let r := run_chain ReloadChain (Resolved (JObj members)) p in
    r.(after).(chat)
    = (p.(chat)
       ++ [entry "system"
             ("Rechargement terminé. " ++ n ++ " sections disponibles.")])%list
    /\ r.(after).(stats_text) = n ++ " sections de documentation disponibles"
    /\ r.(after).(reload_disabled) = false.
Proof.
  intros members n p _ H1 H2. unfold_dom. cbn.
  repeat (first [rewrite H1 | rewrite H2]; cbn).
  repeat split; reflexivity.
Qed.

Lemma reload_success_reports_the_count_witness :
  let members := [("success", JBool true); ("sections_count", JNum 42)] in
  safe_payload (Resolved (JObj members)) = true
  /\ truthy (member "success" members) = true
  /\ value_to_string (member "sections_count" members) = Some "42"
  /\ (run_chain ReloadChain (Resolved (JObj members)) loaded_page)
       .(after).(stats_text)
     = "42 sections de documentation disponibles".
Proof.
  cbv zeta. split; [reflexivity|]. split; [reflexivity|].
  split; [reflexivity|].
  exact (proj1 (proj2
    (@reload_success_reports_the_count
       [("success", JBool true); ("sections_count", JNum 42)] "42"
       loaded_page eq_refl eq_refl eq_refl))).
Defined.

(** X7.  A failed reload can report twice.  When the payload has no truthy
    [success] and its count cannot be printed, the failure entry is already
    in the log when the statistics update throws, and the error callback adds
    the connection error after it: two entries for one response.  The
    statistics display is then left as it was and the button is enabled
    once. *)
Theorem reload_failure_can_report_twice :
  forall (members : list (string * JSON)) (p : Page),
    truthy (member "success" members) = false ->
    value_to_string (member "sections_count" members) = None ->
    let r := run_chain ReloadChain (Resolved (JObj members)) p in
    r.(after).(chat)
    = (p.(chat)
       ++ [ entry "system" "Erreur lors du rechargement de la documentation.";
            entry "system" "Erreur de connexion lors du rechargement." ])%list
    /\ r.(after).(stats_text) = p.(stats_text)
    /\ occurrences enables_reload r.(trace) = 1%nat.
Proof.
  intros members p H1 H2. unfold_dom. cbn.
  repeat (first [rewrite H1 | rewrite H2]; cbn).
  rewrite <- app_assoc. repeat split; reflexivity.
Qed.

Lemma reload_failure_can_report_twice_witness :
  let members := [ ("success", JBool false);
                   ("sections_count", JObj [("toString", JNull)]) ] in
  truthy (member "success" members) = false
  /\ value_to_string (member "sections_count" members) = None
  /\ (run_chain ReloadChain (Resolved (JObj members)) loaded_page)
       .(after).(chat)
     = [ entry "system" "Erreur lors du rechargement de la documentation.";
         entry "system" "Erreur de connexion lors du rechargement." ].
Proof.
  cbv zeta. split; [reflexivity|]. split; [reflexivity|].
  exact (proj1
    (@reload_failure_can_report_twice
       [ ("success", JBool false);
         ("sections_count", JObj [("toString", JNull)]) ]
       loaded_page eq_refl eq_refl)).
Defined.

(** X8.  Whatever a reload settles with, its callbacks only add to the log:
    the entries that were there stay, in their order, and one or two system
    entries without lookup key follow. *)
Theorem reload_settlement_appends_system_entries :
  forall (o : Settlement) (p : Page),
    exists added : list Element,
      (run_chain ReloadChain o p).(after).(chat) = (p.(chat) ++ added)%list
      /\ (List.length added = 1%nat \/ List.length added = 2%nat)
      /\ Forall (fun e => e.(className) = "message system"
                          /\ e.(elem_id) = None) added.
Proof.
  intros o p. run_all; try rewrite <- app_assoc;
    (eexists; split; [reflexivity|]; split;
     [first [left; reflexivity | right; reflexivity]
     |repeat constructor]).
Qed.

(** ** The message log over time *)

Lemma stats_chain_keeps_log o p :
  (run_chain StatsChain o p).(after).(chat) = p.(chat).
Proof. run_all; reflexivity. Qed.

Lemma reload_chain_log o p :
  exists added : list Element,
    (run_chain ReloadChain o p).(after).(chat) = (p.(chat) ++ added)%list
    /\ filter tagged added = [].
Proof.
  run_all; try rewrite <- app_assoc; eexists; split; reflexivity.
Qed.

Lemma reloadDocuments_log p :
  (reloadDocuments p).(after).(chat)
  = (p.(chat)
     ++ [entry "system" "Rechargement de la documentation en cours..."])%list.
Proof. reflexivity. Qed.

Lemma ask_chain_untagged id o p :
  exists added : list Element,
    filter untagged (run_chain (AskChain id) o p).(after).(chat)
    = (filter untagged p.(chat) ++ added)%list.
Proof.
  run_all; rewrite ?filter_app, ?remove_first_keeps_untagged;
    eexists; reflexivity.
Qed.




Lemma dispatch_untagged e p :
  exists added : list Element,
    filter untagged (dispatch e p).(after).(chat)
    = (filter untagged p.(chat) ++ added)%list.
Proof.
  assert (Same : exists added : list Element,
             filter untagged p.(chat)
             = (filter untagged p.(chat) ++ added)%list)
    by (exists []; symmetry; apply app_nil_r).
  assert (Send : forall now, exists added : list Element,
             filter untagged (sendQuestion now p).(after).(chat)
             = (filter untagged p.(chat) ++ added)%list).
  { intros now. destruct (string_dec (trim p.(value)) "") as [E|N].
    - rewrite (sendQuestion_empty now p E). exact Same.
    - destruct (sendQuestion_submits now p N) as (_ & Hc & _).
      rewrite Hc, filter_app. eexists; reflexivity. }
  destruct e as [text| | |now|key now| |n o];
    unfold dispatch, on_send_click, on_keypress, on_reload_click.
  - destruct p.(input_disabled); exact Same.
  - destruct p.(input_disabled); exact Same.
  - exact Same.
  - destruct p.(send_disabled); [exact Same|apply Send].
  - destruct (p.(input_disabled) || negb p.(focused)); [exact Same|].
    destruct (String.eqb key "Enter"); [apply Send|exact Same].
  - destruct p.(reload_disabled); [exact Same|].
    rewrite reloadDocuments_log, filter_app. eexists; reflexivity.
  - destruct (nth_error p.(pending) n) as [[f c]|]; [|exact Same].
    set (q := with_pending (remove_nth n) p).
    change (filter untagged p.(chat)) with (filter untagged q.(chat)).
    destruct c as [| |id].
    + rewrite stats_chain_keeps_log. exists []. symmetry. apply app_nil_r.
    + destruct (reload_chain_log o q) as (added & Hc & _).
      rewrite Hc, filter_app. eexists; reflexivity.
    + apply ask_chain_untagged.
Qed.

(** X9.  The log is append-only for everything but loading entries: through
    any sequence of events, the entries without lookup key that the log holds
    stay in it, in their order, and new ones come after them. *)
Theorem untagged_entries_are_never_lost :
  forall (events : list Event) (p : Page),
    exists added : list Element,
      filter untagged (fst (run events p)).(chat)
      = (filter untagged p.(chat) ++ added)%list.
Proof.
  induction events as [|e rest IH]; intros p.
  - exists []. symmetry. apply app_nil_r.
  - cbn [run]. destruct (IH (dispatch e p).(after)) as (a2 & H2).
    destruct (dispatch_untagged e p) as (a1 & H1).
    destruct (run rest (dispatch e p).(after)) as [q t]. cbn [fst] in *.
    exists (a1 ++ a2)%list. rewrite H2, H1, app_assoc. reflexivity.
Qed.
















Lemma in_step_loaded html :
  html.(pending) = [] ->
  html.(input_disabled) = false ->
  html.(send_disabled) = false ->
  html.(reload_disabled) = false ->
  in_step (on_DOMContentLoaded html).(after).
Proof.
  intros Hp Hi Hs Hr. unfold in_step, asks_in_flight, reloads_in_flight.
  unfold_dom. cbn. rewrite Hp, Hi, Hs, Hr. repeat split.
Qed.

Lemma in_step_sendQuestion now p :
  asks_in_flight p = 0%nat ->
  in_step p -> in_step (sendQuestion now p).(after).
Proof.
  intros H0 I. destruct (string_dec (trim p.(value)) "") as [E|N].
  - rewrite (sendQuestion_empty now p E). exact I.
  - destruct (sendQuestion_submits now p N)
      as (_ & _ & _ & Hi & Hs & Hr & _ & _ & Hp).
    destruct I as (_ & _ & Ir).
    unfold in_step, asks_in_flight, reloads_in_flight in *.
    rewrite Hi, Hs, Hr, Hp, !filter_snoc_length, H0. cbn.
    rewrite Nat.add_0_r. repeat split. exact Ir.
Qed.

Lemma in_step_settle n o p f c :
  nth_error p.(pending) n = Some (f, c) ->
  serialized p -> in_step p ->
  in_step (run_chain c o (with_pending (remove_nth n) p)).(after).
Proof.
  intros Hn [Ha Hr] (Ii & Is & Ir).
  set (q := with_pending (remove_nth n) p).
  assert (Hqa : asks_in_flight q
                = (asks_in_flight p - if is_ask (f, c) then 1 else 0)%nat)
    by (apply filter_remove_nth; exact Hn).
  assert (Hqr : reloads_in_flight q
                = (reloads_in_flight p - if is_reload (f, c) then 1 else 0)%nat)
    by (apply filter_remove_nth; exact Hn).
  assert (Hla : (asks_in_flight p <= 1)%nat) by (destruct (_ && _) in Ha; lia).
  assert (Hlr : (reloads_in_flight p <= 1)%nat)
    by (destruct (_ && _) in Hr; lia).
  unfold in_step, asks_in_flight, reloads_in_flight in *.
  destruct c as [| |id].
  - destruct (stats_chain_settles o q) as (_ & Hd & _ & Hi & Hs & Hp).
    rewrite Hi, Hs, Hd, Hp, Hqa, Hqr. cbn.
    rewrite !Nat.sub_0_r. repeat split; assumption.
  - destruct (reload_chain_settles o q) as (_ & Hd & _ & Hi & Hs & Hp).
    rewrite Hi, Hs, Hd, Hp, Hqa, Hqr. cbn.
    rewrite Nat.sub_0_r. repeat split; try assumption.
    destruct (List.length (filter is_reload p.(pending))) as [|[|k]];
      [reflexivity|reflexivity|lia].
  - destruct (ask_chain_settles id o q) as (_ & Hi & Hs & _ & Hd & _ & Hp).
    rewrite Hi, Hs, Hd, Hp, Hqa, Hqr. cbn.
    rewrite Nat.sub_0_r. repeat split; try assumption;
      destruct (List.length (filter is_ask p.(pending))) as [|[|k]];
      try reflexivity; lia.
Qed.

Lemma in_step_dispatch e p :
  serialized p -> in_step p -> in_step (dispatch e p).(after).
Proof.
  intros S I. pose proof S as [Ha Hr]. pose proof I as (Ii & Is & Ir).
  destruct e as [text| | |now|key now| |n o];
    unfold dispatch, on_send_click, on_keypress, on_reload_click.
  - destruct p.(input_disabled); exact I.
  - destruct p.(input_disabled); exact I.
  - exact I.
  - destruct p.(send_disabled) eqn:E; [exact I|].
    apply in_step_sendQuestion; [|exact I].
    rewrite andb_false_r in Ha. lia.
  - destruct p.(input_disabled) eqn:E; [exact I|].
    destruct p.(focused); [|exact I]. cbn [negb orb].
    destruct (String.eqb key "Enter"); [|exact I].
    apply in_step_sendQuestion; [|exact I]. cbn in Ha. lia.
  - destruct p.(reload_disabled) eqn:E; [exact I|].
    cbn in Hr.
    destruct (reloadDocuments_starts p) as (_ & _ & Hd & _ & Hi & Hs & Hp).
    unfold in_step, asks_in_flight, reloads_in_flight in *.
    rewrite Hi, Hs, Hd, Hp, !filter_snoc_length. cbn.
    rewrite Nat.add_0_r. replace (List.length (filter is_reload p.(pending)))
      with 0%nat by lia.
    repeat split; assumption.
  - destruct (nth_error p.(pending) n) as [[f c]|] eqn:Hn; [|exact I].
    eapply in_step_settle; eassumption.
Qed.

(** X12.  On a document that loads with its three controls enabled and no
    request in flight, after any sequence of events, the field and the send
    button are disabled exactly when a question is in flight and the reload
    button exactly when a reload is: once nothing is in flight every control
    is enabled again. *)
Theorem controls_follow_the_requests_in_flight :
  forall (html : Page) (events : list Event),
    html.(pending) = [] ->
    html.(input_disabled) = false ->
    html.(send_disabled) = false ->
    html.(reload_disabled) = false ->
    let p := page_after html events in
    p.(input_disabled) = Nat.eqb (asks_in_flight p) 1
    /\ p.(send_disabled) = Nat.eqb (asks_in_flight p) 1
    /\ p.(reload_disabled) = Nat.eqb (reloads_in_flight p) 1
    /\ (posts_in_flight p = 0%nat ->
        p.(input_disabled) = false /\ p.(send_disabled) = false
        /\ p.(reload_disabled) = false).
Proof.
  intros html events Hp Hi Hs Hr p.
  assert (I : serialized p /\ in_step p).
  { subst p. unfold page_after.
    assert (S0 := serialized_loaded html Hp).
    assert (I0 := in_step_loaded html Hp Hi Hs Hr).
    generalize dependent ((on_DOMContentLoaded html).(after)).
    induction events as [|e rest IH]; intros p0 S0 I0; [split; assumption|].
    cbn [run].
    specialize (IH _ (serialized_dispatch e S0) (in_step_dispatch e S0 I0)).
    destruct (run rest (dispatch e p0).(after)). exact IH. }
  destruct I as (_ & Ii & Is & Ir).
  split; [exact Ii|]. split; [exact Is|]. split; [exact Ir|].
  unfold posts_in_flight. intros H0.
  rewrite Ii, Is, Ir.
  replace (asks_in_flight p) with 0%nat by lia.
  replace (reloads_in_flight p) with 0%nat by lia.
  repeat split.
Qed.

Lemma controls_follow_the_requests_in_flight_witness :
  blank_page.(pending) = []
  /\ blank_page.(input_disabled) = false
  /\ blank_page.(send_disabled) = false
  /\ blank_page.(reload_disabled) = false
  /\ (page_after blank_page
        [Edit "What is X?"; ClickSend 1700000000000; Settle 1 Rejected])
       .(input_disabled)
     = false.
Proof.
  split; [reflexivity|]. split; [reflexivity|]. split; [reflexivity|].
  split; [reflexivity|].
  exact (proj1 (@controls_follow_the_requests_in_flight blank_page
                  [Edit "What is X?"; ClickSend 1700000000000; Settle 1 Rejected]
                  eq_refl eq_refl eq_refl eq_refl)).
Defined.

(** ** Lookup keys *)

Lemma decimal_injective a b : decimal a = decimal b -> a = b.
Proof.
  unfold decimal. intros H. apply DecimalZ.to_int_inj.
  assert (R : forall z, NilZero.int_of_string
                          (NilZero.string_of_int (Z.to_int z))
                        = Some (Z.to_int z)).
  { intros z. apply NilZero.isi; destruct z; cbn; try discriminate;
      intros [= E]; exact (DecimalPos.Unsigned.to_uint_nonnil _ E). }
  pose proof (R a) as Ra. rewrite H, R in Ra. injection Ra as ->. reflexivity.
Qed.

Lemma msg_key_injective a b : msg_key a = msg_key b -> a = b.
Proof.
  unfold msg_key. intros H. apply decimal_injective.
  cbn in H. injection H as H. exact H.
Qed.

Lemma remove_first_keeps key e l :
  has_id key e = false -> In e l -> In e (remove_first key l).
Proof.
  intros He. induction l as [|x l IH]; intros H; [destruct H|].
  unfold remove_first. fold remove_first.
  destruct (has_id key x) eqn:Hx.
  - destruct H as [->|H]; [congruence|exact H].
  - destruct H as [->|H]; [left; reflexivity|right; apply IH; exact H].
Qed.


(** X13.  Lookup keys tell correlation ids apart: two different ids never
    give the same key, so [removeMessage(id)] never finds and never removes
    an entry that [addMessage] created under another id. *)
Theorem removeMessage_spares_other_ids :
  forall (id id' : Z) (type text : string) (q : Page),
    id <> id' ->
    let e := {| className := "message " ++ type;
                elem_id := lookup_key (Some id');
                innerHTML := replace_newlines text |} in
    msg_key id <> msg_key id'
    /\ getElementById (msg_key id) q <> Some e
    /\ (In e q.(chat) -> In e (removeMessage id q).(after).(chat)).
Proof.
  intros id id' type text q Hne e.
  assert (K : msg_key id <> msg_key id')
    by (intros H; apply Hne, msg_key_injective; exact H).
  assert (He : has_id (msg_key id) e = false).
  { unfold has_id, e, lookup_key. cbn. destruct (id' =? 0); [reflexivity|].
    apply String.eqb_neq. intros H. apply K. symmetry. exact H. }
  split; [exact K|]. split.
  - intros H. unfold getElementById in H. apply find_some in H.
    destruct H as [_ H]. congruence.
  - intros H. unfold removeMessage, bind, read, prepend, perform, ret. cbn.
    destruct (getElementById (msg_key id) q); cbn; [|exact H].
    apply remove_first_keeps; assumption.
Qed.

Lemma removeMessage_spares_other_ids_witness :
  1700000000000 <> 1700000000001
  /\ msg_key 1700000000000 <> msg_key 1700000000001.
Proof.
  assert (H : 1700000000000 <> 1700000000001) by lia.
  split; [exact H|].
  exact (proj1 (@removeMessage_spares_other_ids 1700000000000 1700000000001
                  "assistant" "Recherche en cours..." loaded_page H)).
Defined.



(** ** Markup of an entry *)

Lemma replace_newlines_step c rest :
  replace_newlines (String c rest)
  = if Ascii.eqb c LF then "<br>" ++ replace_newlines rest
    else String c (replace_newlines rest).
Proof. reflexivity. Qed.

Lemma has_line_feed_append a b :
  has_line_feed (a ++ b) = has_line_feed a || has_line_feed b.
Proof.
  induction a as [|c a IH]; [reflexivity|].
  cbn [append has_line_feed]. rewrite IH. apply orb_assoc.
Qed.

(** X15.  The markup [addMessage] makes of a text: it holds no line feed;
    it is four characters for each line feed and one for each other
    character of the text; a text without line feed is its own markup; and
    the markup of two texts put together is their markups put together. *)
Theorem markup_of_a_text :
  forall a b : string,
    has_line_feed (replace_newlines a) = false
    /\ String.length (replace_newlines a)
       = (String.length a + 3 * count_line_feeds a)%nat
    /\ (has_line_feed a = false -> replace_newlines a = a)
    /\ replace_newlines (a ++ b) = replace_newlines a ++ replace_newlines b.
Proof.
  intros a b. split; [|split; [|split]].
  - induction a as [|c a IH]; [reflexivity|].
    rewrite replace_newlines_step. destruct (Ascii.eqb c LF) eqn:E.
    + exact IH.
    + cbn [has_line_feed]. rewrite E, IH. reflexivity.
  - induction a as [|c a IH]; [reflexivity|].
    rewrite replace_newlines_step. cbn [count_line_feeds String.length].
    destruct (Ascii.eqb c LF); cbn [append String.length]; rewrite IH; lia.
  - induction a as [|c a IH]; [reflexivity|].
    rewrite replace_newlines_step. cbn [has_line_feed].
    destruct (Ascii.eqb c LF); [discriminate|].
    intros H. rewrite IH by exact H. reflexivity.
  - induction a as [|c a IH]; [reflexivity|].
    cbn [append]. rewrite !replace_newlines_step, IH.
    destruct (Ascii.eqb c LF); reflexivity.
Qed.

(** ** Inert markup and exact numbers *)

(** A text without an angle bracket gives an inert entry: the only tags of
    its markup are the line breaks [addMessage] writes. *)
Lemma plain_text_is_inert type text :
  has_angle text = false -> inert (entry type text) = true.
Proof.
  unfold inert, entry. cbn [innerHTML].
  induction text as [|c rest IH]; [reflexivity|].
  cbn [has_angle]. intros H. apply orb_false_iff in H. destruct H as [Hc Hr].
  rewrite replace_newlines_step. destruct (Ascii.eqb c LF).
  - cbn. rewrite IH by exact Hr.
    destruct (replace_newlines rest); reflexivity.
  - cbn [only_line_breaks]. rewrite Hc. apply IH. exact Hr.
Qed.

(** Markup that makes an element with an id is not inert, and a number
    beyond 2^53 is not safe. *)
Example markup_with_an_id_is_not_inert :
  inert (entry "user" "<i id=msg-5>x</i>") = false
  /\ safe_numbers (JNum (10 ^ 21)) = false
  /\ safe_numbers (JNum (2 ^ 53 + 1)) = false
  /\ safe_numbers (JNum (2 ^ 53)) = true.
Proof. repeat split. Qed.

(** ** The question field *)

Lemma drop_start_all_white l :
  forallb Trim.ws1 l = true -> Trim.drop_start l = [].
Proof.
  induction l as [|a l IH]; [reflexivity|]. cbn [forallb Trim.drop_start].
  intros H. apply andb_true_iff in H. destruct H as [Ha Hl].
  rewrite Ha. apply IH. exact Hl.
Qed.

(** X16.  A field that holds only spaces, tabs, line feeds and the like
    submits nothing: [sendQuestion] leaves the page as it is and performs no
    side effect, whatever the number of white characters. *)
Theorem white_field_submits_nothing :
  forall (p : Page) (now : Z),
    all_white p.(value) = true ->
    trim p.(value) = ""
    /\ sendQuestion now p
       = {| completion := Normal tt; after := p; trace := [] |}.
Proof.
  intros p now H.
  assert (E : trim p.(value) = "").
  { unfold trim, Trim.trim. unfold all_white in H.
    rewrite (drop_start_all_white _ H). reflexivity. }
  split; [exact E|]. apply sendQuestion_empty. exact E.
Qed.

Lemma white_field_submits_nothing_witness :
  all_white (typed (String "009" (String "032" (String LF "  ")))).(value)
  = true
  /\ trim (typed (String "009" (String "032" (String LF "  ")))).(value) = "".
Proof.
  split; [reflexivity|].
  exact (proj1 (@white_field_submits_nothing
                  (typed (String "009" (String "032" (String LF "  "))))
                  1700000000000 eq_refl)).
Defined.

Lemma drop_start_shorter l :
  (List.length (Trim.drop_start l) <= List.length l)%nat.
Proof.
  assert (G : forall n l, (List.length l <= n)%nat ->
                (List.length (Trim.drop_start l) <= List.length l)%nat).
  { induction n as [|n IH]; intros [|a r1] Hn;
      cbn [List.length] in Hn; try lia; [cbn; lia|cbn; lia|].
    cbn [Trim.drop_start]. destruct (Trim.ws1 a).
    - specialize (IH r1 ltac:(lia)). cbn [List.length]. lia.
    - destruct r1 as [|b r2]; [lia|]. destruct (Trim.ws2 a b).
      + specialize (IH r2 ltac:(cbn [List.length] in Hn; lia)).
        cbn [List.length]. lia.
      + destruct r2 as [|c r3]; [lia|]. destruct (Trim.ws3 a b c); [|lia].
        specialize (IH r3 ltac:(cbn [List.length] in Hn; lia)).
        cbn [List.length]. lia. }
  apply (G (List.length l)). lia.
Qed.

Lemma drop_start_idempotent l :
  Trim.drop_start (Trim.drop_start l) = Trim.drop_start l.
Proof.
  assert (G : forall n l, (List.length l <= n)%nat ->
                Trim.drop_start (Trim.drop_start l) = Trim.drop_start l).
  { induction n as [|n IH]; intros [|a r1] Hn;
      cbn [List.length] in Hn; try lia; [reflexivity|reflexivity|].
    cbn [Trim.drop_start]. destruct (Trim.ws1 a) eqn:E1.
    - apply IH. lia.
    - destruct r1 as [|b r2]; [cbn; rewrite E1; reflexivity|].
      destruct (Trim.ws2 a b) eqn:E2.
      + apply IH. cbn [List.length] in Hn. lia.
      + destruct r2 as [|c r3]; [cbn; rewrite E1, E2; reflexivity|].
        destruct (Trim.ws3 a b c) eqn:E3.
        * apply IH. cbn [List.length] in Hn. lia.
        * cbn. rewrite E1, E2, E3. reflexivity. }
  apply (G (List.length l)). lia.
Qed.

(** A list that starts with no white space still does when cut short. *)
Lemma drop_start_prefix t s :
  Trim.drop_start (t ++ s)%list = (t ++ s)%list -> Trim.drop_start t = t.
Proof.
  intros H.
  assert (L : forall x, (List.length (Trim.drop_start x) <= List.length x)%nat)
    by apply drop_start_shorter.
  destruct t as [|a t1]; [reflexivity|].
  cbn [app Trim.drop_start] in H |- *.
  destruct (Trim.ws1 a).
  { pose proof (L (t1 ++ s)%list) as Q. rewrite H in Q.
    cbn [List.length] in Q. lia. }
  destruct t1 as [|b t2]; [reflexivity|]. cbn [app] in H.
  destruct (Trim.ws2 a b).
  { pose proof (L (t2 ++ s)%list) as Q. rewrite H in Q.
    cbn [List.length] in Q. lia. }
  destruct t2 as [|c t3]; [reflexivity|]. cbn [app] in H.
  destruct (Trim.ws3 a b c); [|reflexivity].
  pose proof (L (t3 ++ s)%list) as Q. rewrite H in Q.
  cbn [List.length] in Q. lia.
Qed.

Lemma drop_start_rev_idempotent l :
  Trim.drop_start_rev (Trim.drop_start_rev l) = Trim.drop_start_rev l.
Proof.
  assert (G : forall n l, (List.length l <= n)%nat ->
                Trim.drop_start_rev (Trim.drop_start_rev l)
                = Trim.drop_start_rev l).
  { induction n as [|n IH]; intros [|a r1] Hn;
      cbn [List.length] in Hn; try lia; [reflexivity|reflexivity|].
    cbn [Trim.drop_start_rev]. destruct (Trim.ws1 a) eqn:E1.
    - apply IH. lia.
    - destruct r1 as [|b r2]; [cbn; rewrite E1; reflexivity|].
      destruct (Trim.ws2 b a) eqn:E2.
      + apply IH. cbn [List.length] in Hn. lia.
      + destruct r2 as [|c r3]; [cbn; rewrite E1, E2; reflexivity|].
        destruct (Trim.ws3 c b a) eqn:E3.
        * apply IH. cbn [List.length] in Hn. lia.
        * cbn. rewrite E1, E2, E3. reflexivity. }
  apply (G (List.length l)). lia.
Qed.

(** What is dropped is a prefix. *)
Lemma drop_start_rev_suffix l :
  exists pre, l = (pre ++ Trim.drop_start_rev l)%list.
Proof.
  assert (G : forall n l, (List.length l <= n)%nat ->
                exists pre, l = (pre ++ Trim.drop_start_rev l)%list).
  { induction n as [|n IH]; intros [|a r1] Hn;
      cbn [List.length] in Hn; try lia;
      [exists []; reflexivity|exists []; reflexivity|].
    cbn [Trim.drop_start_rev]. destruct (Trim.ws1 a).
    - destruct (IH r1 ltac:(lia)) as (pre & E).
      exists (a :: pre). cbn. rewrite <- E. reflexivity.
    - destruct r1 as [|b r2]; [exists []; reflexivity|].
      destruct (Trim.ws2 b a).
      + destruct (IH r2 ltac:(cbn [List.length] in Hn; lia)) as (pre & E).
        exists (a :: b :: pre). cbn. rewrite <- E. reflexivity.
      + destruct r2 as [|c r3]; [exists []; reflexivity|].
        destruct (Trim.ws3 c b a); [|exists []; reflexivity].
        destruct (IH r3 ltac:(cbn [List.length] in Hn; lia)) as (pre & E).
        exists (a :: b :: c :: pre). cbn. rewrite <- E. reflexivity. }
  apply (G (List.length l)). lia.
Qed.

Lemma trim_idempotent s : trim (trim s) = trim s.
Proof.
  unfold trim, Trim.trim. rewrite list_ascii_of_string_of_list_ascii.
  set (m := Trim.drop_start (list_ascii_of_string s)).
  set (k := Trim.drop_start_rev (rev m)).
  assert (Hm : Trim.drop_start m = m) by apply drop_start_idempotent.
  destruct (drop_start_rev_suffix (rev m)) as (pre & E). fold k in E.
  assert (Em : m = (rev k ++ rev pre)%list)
    by (rewrite <- rev_app_distr, <- E, rev_involutive; reflexivity).
  assert (Hk : Trim.drop_start (rev k) = rev k).
  { apply drop_start_prefix with (s := rev pre). rewrite <- Em. exact Hm. }
  rewrite Hk, rev_involutive. unfold k at 1.
  rewrite drop_start_rev_idempotent. reflexivity.
Qed.

(** X17.  White space around a question makes no difference to its
    submission: trimming is idempotent, and with a non-empty question
    [sendQuestion] leaves the same page and performs the same side effects
    whether the field holds the text as typed or already trimmed. *)
Theorem surrounding_white_space_is_ignored :
  forall (text : string) (now : Z) (p : Page),
    trim text <> "" ->
    trim (trim text) = trim text
    /\ sendQuestion now (with_value text p)
       = sendQuestion now (with_value (trim text) p).
Proof.
  intros text now p H. pose proof (trim_idempotent text) as I.
  split; [exact I|].
  apply String.eqb_neq in H.
  unfold sendQuestion, bind, read, prepend, ret. cbn.
  rewrite I, H. reflexivity.
Qed.

Lemma surrounding_white_space_is_ignored_witness :
  trim "  What is X? " <> ""
  /\ sendQuestion 1700000000000 (with_value "  What is X? " loaded_page)
     = sendQuestion 1700000000000 (with_value "What is X?" loaded_page).
Proof.
  assert (H : trim "  What is X? " <> "") by (vm_compute; discriminate).
  split; [exact H|].
  exact (proj2 (@surrounding_white_space_is_ignored "  What is X? "
                  1700000000000 loaded_page H)).
Defined.

(** ** The body of a question *)

Lemma unescape_escape c s :
  unescape (Quote.escape c ++ s) = option_map (String c) (unescape s).
Proof.
  destruct c as [b0 b1 b2 b3 b4 b5 b6 b7];
    destruct b0, b1, b2, b3, b4, b5, b6, b7; reflexivity.
Qed.

Lemma append_assoc (a b c : string) : (a ++ b) ++ c = a ++ b ++ c.
Proof. induction a as [|x a IH]; [reflexivity|]. cbn. now rewrite IH. Qed.

Lemma unescape_escape_all s : unescape (Quote.escape_all s) = Some s.
Proof.
  induction s as [|c s IH]; [reflexivity|].
  cbn [Quote.escape_all]. rewrite unescape_escape, IH. reflexivity.
Qed.

Lemma append_length (a b : string) :
  String.length (a ++ b) = (String.length a + String.length b)%nat.
Proof. induction a as [|x a IH]; [reflexivity|]. cbn. now rewrite IH. Qed.

Lemma append_cancel_r (a b t : string) : a ++ t = b ++ t -> a = b.
Proof.
  revert b. induction a as [|x a IH]; intros [|y b] H.
  - reflexivity.
  - apply (f_equal String.length) in H. cbn in H.
    rewrite append_length in H. lia.
  - apply (f_equal String.length) in H. cbn in H.
    rewrite append_length in H. lia.
  - cbn in H. injection H as -> H. f_equal. apply IH. exact H.
Qed.

Lemma escape_printable c :
  forallb printable (list_ascii_of_string (Quote.escape c)) = true.
Proof.
  destruct c as [b0 b1 b2 b3 b4 b5 b6 b7];
    destruct b0, b1, b2, b3, b4, b5, b6, b7; reflexivity.
Qed.

Lemma list_ascii_of_string_append (a b : string) :
  list_ascii_of_string (a ++ b)
  = (list_ascii_of_string a ++ list_ascii_of_string b)%list.
Proof. induction a as [|x a IH]; [reflexivity|]. cbn. now rewrite IH. Qed.

Lemma escape_all_printable s :
  forallb printable (list_ascii_of_string (Quote.escape_all s)) = true.
Proof.
  induction s as [|c s IH]; [reflexivity|].
  cbn [Quote.escape_all].
  rewrite list_ascii_of_string_append, forallb_app, escape_printable, IH.
  reflexivity.
Qed.

(** X18.  The body sent with a question determines the question: two
    different questions never give the same body, whatever quotes,
    backslashes or control characters they hold.  The body holds no control
    character, so a line feed in a question never breaks it. *)
Theorem question_body_is_faithful :
  forall q1 q2 : string,
    (stringify_question q1 = stringify_question q2 -> q1 = q2)
    /\ forallb printable (list_ascii_of_string (stringify_question q1)) = true.
Proof.
  intros q1 q2. split.
  - unfold stringify_question, Quote.quote. intros H. cbn in H.
    injection H as H.
    apply append_cancel_r, append_cancel_r in H.
    apply (f_equal unescape) in H. rewrite !unescape_escape_all in H.
    injection H as ->. reflexivity.
  - unfold stringify_question, Quote.quote.
    repeat first [ rewrite list_ascii_of_string_append
                 | rewrite forallb_app
                 | rewrite escape_all_printable
                 | progress cbn [append list_ascii_of_string forallb] ].
    reflexivity.
Qed.

(** ** Responses in either order *)

Lemma stats_chain_after o :
  exists text : string,
    forall p, (run_chain StatsChain o p).(after) = with_stats_text text p.
Proof.
  exists (run_chain StatsChain o blank_page).(after).(stats_text).
  intros p. run_all; reflexivity.
Qed.

Lemma ask_chain_ignores_stats id o text p :
  (run_chain (AskChain id) o (with_stats_text text p)).(after)
  = with_stats_text text (run_chain (AskChain id) o p).(after).
Proof.
  unfold_dom. unfold getElementById. cbn.
  repeat (step_case; cbn); reflexivity.
Qed.

(** X19.  The response to the statistics request and the response to a
    question can be handled in either order: the page is the same after
    both. *)
Theorem stats_and_question_settle_in_either_order :
  forall (id : Z) (stats answer : Settlement) (p : Page),
    (run_chain StatsChain stats
       (run_chain (AskChain id) answer p).(after)).(after)
    = (run_chain (AskChain id) answer
         (run_chain StatsChain stats p).(after)).(after).
Proof.
  intros id stats answer p.
  destruct (stats_chain_after stats) as (text & H).
  rewrite !H. symmetry. apply ask_chain_ignores_stats.
Qed.
